(** * The Quantinuum example notebook, as a program over its SDK

  The repository's one source file is [examples/QuantinuumExample.ipynb].
  Its code cells are straight-line Python: calls into qiskit and the
  Quantinuum provider, a few [print]s, and one [with open(...)] block
  that dumps the counts of a result to a JSON file.

  The definitions come in these layers.
  - [Py]: the Python values the cells handle (strings, the counts
    dictionary), [str]/[repr] as [print] uses them, and [json.dump] on a
    dictionary from strings to integers.
  - [Qiskit]: the circuit object the circuit cell builds, with the calls
    the cell makes on it ([QuantumCircuit], [h], [cx], [measure_all]).
  - [Kernel]: cell programs as trees of calls.  Calls into installed
    libraries (the SDK) are answered by a handler that is a parameter of
    every statement; calls into the Python runtime ([print], [open],
    [json.dump], [os.environ]) are interpreted on a small model of the
    process: standard output, displayed values, a file system and the
    environment variables.  Every call and its answer is logged.
  - [Trace]: what can be read off a log.
  - [Notebook]: the code cells, one definition per cell, and their
    top-to-bottom composition.
  - [Session]: the cells once more, statement by statement, over the
    global names of the kernel, so that a cell can also run on its own or
    out of order; reading a name that is not bound raises [NameError].
  - [Recorded]: handlers that replay the answers stored in the notebook's
    outputs, and variations of them.

  What the model leaves out: the SDK is a parameter, so nothing is said
  about what it does inside (the network, the device).  What it keeps
  between calls, in memory, on disk (the account it stores, its
  configuration) or at the service (the jobs), is its own state; it sees
  that state and the environment variables.  The file system of the
  model is the working directory of the kernel as the cells' own file
  operations reach it: what is said about it is said about those
  operations, not about files the SDK writes elsewhere.  Closing a file
  does not fail. *)

From Stdlib Require Import ZArith NArith String Ascii List Bool Lia.
From stdpp Require Import gmap strings list fin_maps pretty.

Local Open Scope Z_scope.

(** ** Python values *)

Module Py.

(** A Python [str] is a Rocq [string] whose characters are the code
    points below 256. *)
Definition ord (c : ascii) : N := N_of_ascii c.
Definition chr (n : N) : ascii := ascii_of_N n.

Definition dquote : ascii := chr 34.
Definition squote : ascii := chr 39.
Definition backslash : ascii := chr 92.
Definition newline : ascii := chr 10.

Definition str1 (c : ascii) : string := String c EmptyString.

(** An exception object: its class and its message. *)
Record exn := Exn { exn_type : string; exn_msg : string }.

(** [dict] with [str] keys and [int] values, in insertion order: what
    [result.get_counts()] returns for one circuit. *)
Definition Counts := list (string * Z).

Fixpoint join (sep : string) (l : list string) : string :=
  match l with
  | [] => ""
  | [x] => x
  | x :: rest => x +:+ sep +:+ join sep rest
  end.

Fixpoint concat_map (f : ascii -> string) (s : string) : string :=
  match s with
  | EmptyString => ""
  | String c rest => f c +:+ concat_map f rest
  end.

Fixpoint contains (c : ascii) (s : string) : bool :=
  match s with
  | EmptyString => false
  | String d rest => if Ascii.eqb c d then true else contains c rest
  end.

Definition hex_digit (d : N) : ascii :=
  if (d <? 10)%N then chr (48 + d) else chr (87 + d).

Definition hex2 (n : N) : string :=
  String (hex_digit ((n / 16) mod 16)) (str1 (hex_digit (n mod 16))).

(** *** [json.dump]

    [json.encoder.py_encode_basestring_ascii]: backslash and the double
    quote get a backslash, the rest of the printable ASCII range is kept,
    five control characters have a short escape, and every other code
    point is written [\u00xx]. *)
Definition json_escape (c : ascii) : string :=
  let n := ord c in
  if (n =? 34)%N then String backslash (str1 dquote)
  else if (n =? 92)%N then String backslash (str1 backslash)
  else if ((32 <=? n) && (n <=? 126))%N then str1 c
  else if (n =? 8)%N then "\b"
  else if (n =? 12)%N then "\f"
  else if (n =? 10)%N then "\n"
  else if (n =? 13)%N then "\r"
  else if (n =? 9)%N then "\t"
  else "\u00" +:+ hex2 n.

Definition json_string (s : string) : string :=
  str1 dquote +:+ concat_map json_escape s +:+ str1 dquote.

(** One [key: value] item, with the default key separator. *)
Definition json_item (kv : string * Z) : string :=
  json_string (fst kv) +:+ ": " +:+ pretty (snd kv).

(** The text [json.dump(counts, f)] writes to [f]: the items in
    dictionary order, with the default item separator. *)
Definition json_dumps (c : Counts) : string :=
  "{" +:+ join ", " (map json_item c) +:+ "}".

(** *** [str] and [repr], as [print] applies them *)

Definition printable_latin1 (n : N) : bool :=
  ((161 <=? n) && negb (n =? 173))%N.

Definition repr_quote (s : string) : ascii :=
  if contains squote s && negb (contains dquote s) then dquote else squote.

Definition repr_char (q c : ascii) : string :=
  let n := ord c in
  if Ascii.eqb c q || Ascii.eqb c backslash then String backslash (str1 c)
  else if (n =? 9)%N then "\t"
  else if (n =? 10)%N then "\n"
  else if (n =? 13)%N then "\r"
  else if ((n <? 32) || (n =? 127))%N then "\x" +:+ hex2 n
  else if (n <? 127)%N then str1 c
  else if printable_latin1 n then str1 c
  else "\x" +:+ hex2 n.

Definition repr_str (s : string) : string :=
  let q := repr_quote s in
  str1 q +:+ concat_map (repr_char q) s +:+ str1 q.

Definition repr_item (kv : string * Z) : string :=
  repr_str (fst kv) +:+ ": " +:+ pretty (snd kv).

Definition repr_counts (c : Counts) : string :=
  "{" +:+ join ", " (map repr_item c) +:+ "}".

(** The arguments the notebook passes to [print]. *)
Inductive value :=
| VStr (s : string)
| VBool (b : bool)
| VCounts (c : Counts).

Definition str (v : value) : string :=
  match v with
  | VStr s => s
  | VBool true => "True"
  | VBool false => "False"
  | VCounts c => repr_counts c
  end.

(** What a call of [print] appends to standard output: the arguments'
    [str], separated by one space, and a newline. *)
Definition print_text (args : list value) : string :=
  join " " (map str args) +:+ str1 newline.

(** A literal with a backquote where the text has a double quote. *)
Definition lit (s : string) : string :=
  concat_map (fun c => if Ascii.eqb c (chr 96) then str1 dquote else str1 c) s.

End Py.

(** ** The circuit object *)

Module Qiskit.

Import Py.

(** The instructions the notebook's circuit can hold.  Qubits and classical
    bits are numbered through the circuit, registers in declaration
    order. *)
Inductive instruction :=
| HGate (qubit : nat)
| CXGate (control target : nat)
| Barrier (qubits : list nat)
| Measure (qubit clbit : nat).

Record ClassicalRegister := { creg_name : string; creg_size : nat }.

(** [QuantumCircuit(n, m, name=...)] has one quantum register [q] of [n]
    qubits; its classical registers and its instructions are lists that the
    circuit's methods extend in place. *)
Record Circuit := {
  circ_name : string;
  num_qubits : nat;
  cregs : list ClassicalRegister;
  data : list instruction
}.

Definition num_clbits (qc : Circuit) : nat :=
  foldr (fun r n => (creg_size r + n)%nat) 0%nat (cregs qc).

Definition CircuitError (msg : string) : exn := Exn "CircuitError" msg.

(** [QuantumCircuit(n_qubits, n_clbits, name=name)] with integer sizes. *)
Definition QuantumCircuit (n_qubits n_clbits : Z) (name : string)
  : exn + Circuit :=
  if (n_qubits <? 0) || (n_clbits <? 0)
  then inl (CircuitError "Register size must be non-negative")
  else inr {| circ_name := name;
              num_qubits := Z.to_nat n_qubits;
              cregs := if n_clbits =? 0 then []
                       else [{| creg_name := "c"; creg_size := Z.to_nat n_clbits |}];
              data := [] |}.

(** An integer qubit argument indexes the list of qubits as Python indexes
    a list: from the end when negative, an error when out of range. *)
Definition qubit_index (n : nat) (i : Z) : exn + nat :=
  if (0 <=? i) && (i <? Z.of_nat n) then inr (Z.to_nat i)
  else if (- Z.of_nat n <=? i) && (i <? 0) then inr (Z.to_nat (i + Z.of_nat n))
  else inl (CircuitError "Index out of range.").

Definition append (i : instruction) (qc : Circuit) : Circuit :=
  {| circ_name := circ_name qc; num_qubits := num_qubits qc; cregs := cregs qc;
     data := data qc ++ [i] |}.

(** [circuit.h(qubit)] *)
Definition h (qubit : Z) (qc : Circuit) : exn + Circuit :=
  match qubit_index (num_qubits qc) qubit with
  | inl e => inl e
  | inr q => inr (append (HGate q) qc)
  end.

(** [circuit.cx(control_qubit, target_qubit)] *)
Definition cx (control target : Z) (qc : Circuit) : exn + Circuit :=
  match qubit_index (num_qubits qc) control with
  | inl e => inl e
  | inr c =>
      match qubit_index (num_qubits qc) target with
      | inl e => inl e
      | inr t =>
          if Nat.eqb c t then inl (CircuitError "duplicate qubit arguments")
          else inr (append (CXGate c t) qc)
      end
  end.

(** The register [measure_all] creates is called [meas]; when the circuit
    already has a register of that name qiskit numbers the new one from a
    counter of its own, for which the number of registers stands here. *)
Definition create_creg (size : nat) (name : string) (qc : Circuit)
  : ClassicalRegister :=
  if existsb (fun r => String.eqb (creg_name r) name) (cregs qc)
  then {| creg_name := name +:+ pretty (length (cregs qc)); creg_size := size |}
  else {| creg_name := name; creg_size := size |}.

(** [circuit.measure_all()], with its defaults [inplace=True] and
    [add_bits=True]: a new classical register as wide as the circuit has
    qubits is added, then a barrier over all qubits, then qubit [i] is
    measured into bit [i] of the new register. *)
Definition measure_all (qc : Circuit) : Circuit :=
  let n := num_qubits qc in
  let first := num_clbits qc in
  {| circ_name := circ_name qc;
     num_qubits := n;
     cregs := cregs qc ++ [create_creg n "meas" qc];
     data := data qc ++ Barrier (seq 0 n)
                     :: map (fun i => Measure i (first + i)%nat) (seq 0 n) |}.

(** The labels [circuit.draw()] puts before the classical wires, one per
    register: its name and its width. *)
Definition creg_labels (qc : Circuit) : list string :=
  map (fun r => creg_name r +:+ ": " +:+ pretty (creg_size r) +:+ "/") (cregs qc).

(** The labels before the quantum wires. *)
Definition qubit_labels (qc : Circuit) : list string :=
  match num_qubits qc with
  | 1%nat => ["q: "]
  | n => map (fun i => "q_" +:+ pretty i +:+ ": ") (seq 0 n)
  end.

(** The circuit of the drawing stored with the circuit cell (source lines
    125-133): wires [q_0], [q_1], [c: 2/] and [meas: 2/]; a Hadamard gate
    on [q_0], a controlled X from [q_0] to [q_1], a barrier, and the two
    qubits measured into bits 0 and 1 of [meas], which are bits 2 and 3 of
    the circuit. *)
Definition bell_test : Circuit :=
  {| circ_name := "Bell Test";
     num_qubits := 2;
     cregs := [ {| creg_name := "c"; creg_size := 2 |};
                {| creg_name := "meas"; creg_size := 2 |} ];
     data := [ HGate 0; CXGate 0 1; Barrier [0; 1]%nat; Measure 0 2; Measure 1 3 ] |}.

End Qiskit.

(** ** Cell programs and their execution *)

Module Kernel.

Import Py.

(** *** Objects of the SDK

    The notebook holds them by reference and hands them back to the SDK;
    of a backend status it reads [status_msg], of a result [job_id] and
    [success]. *)
Definition handle := N.

Record Backend := { backend_ref : handle }.
Record BackendStatus := { status_ref : handle; status_msg : string }.
Record Job := { job_ref : handle }.
Record Result := { result_ref : handle; job_id : string; success : bool }.
Record Drawing := { drawing_ref : handle }.
Record Figure := { figure_ref : handle }.

(** [qiskit.providers.JobStatus] *)
Inductive JobStatus :=
| INITIALIZING | QUEUED | VALIDATING | RUNNING | CANCELLED | DONE | ERROR.

(** A file object returned by [open]: an index into the process's table of
    files. *)
Definition file := nat.

(** The value of a cell's last expression, which the notebook front end
    displays under the cell. *)
Inductive shown :=
| ShownBackends (l : list Backend)
| ShownDrawing (d : Drawing)
| ShownJobStatus (s : JobStatus)
| ShownFigure (f : Figure).

(** The code cells of the notebook, in document order: the imports
    (source lines 34-38), [save_account]/[load_account] (56-57),
    [backends()] (73), [get_backend] and [backend.status()] (97-101), the
    circuit (153-159), [execute] (179-180), [job.status()] (209),
    [job.result()] (236-239), [get_counts] (267-268), [plot_histogram]
    (286), the dump to JSON (304-307), and the retrieval of a past job
    (327-333). *)
Inductive step :=
| StepImports | StepCredentials | StepDiscovery | StepBackendStatus
| StepCircuit | StepSubmit | StepJobStatus | StepResult | StepCounts
| StepPlot | StepSave | StepPastJob.

(** *** Calls

    Calls into installed libraries, which the environment answers. *)
Inductive ext_call :=
| Import (module : string) (names : list string)
| SaveAccount (user_name : string)
| LoadAccount
| Backends
| GetBackend (device : string)
| BackendStatusOf (b : Backend)
| Draw (c : Qiskit.Circuit)
| Execute (c : Qiskit.Circuit) (b : Backend) (shots : Z)
| JobStatusOf (j : Job)
| JobResultOf (j : Job)
| GetCounts (r : Result)
| PlotHistogram (c : Counts)
| RetrieveJob (b : Backend) (job_id : string).

Definition ext_resp (c : ext_call) : Type :=
  match c with
  | Import _ _ | SaveAccount _ | LoadAccount => unit
  | Backends => list Backend
  | GetBackend _ => Backend
  | BackendStatusOf _ => BackendStatus
  | Draw _ => Drawing
  | Execute _ _ _ => Job
  | JobStatusOf _ => JobStatus
  | JobResultOf _ => Result
  | GetCounts _ => Counts
  | PlotHistogram _ => Figure
  | RetrieveJob _ _ => Job
  end.

(** Calls into the Python runtime and the notebook front end, which the
    model of the process answers.  [GetEnv] is [os.environ.get]. *)
Inductive rt_call :=
| ExecuteCell (s : step)
| PrintOut (args : list value)
| DisplayOut (v : shown)
| GetEnv (name : string)
| OpenFile (path mode : string)
| JsonDump (c : Counts) (f : file)
| CloseFile (f : file).

Definition rt_resp (c : rt_call) : Type :=
  match c with
  | ExecuteCell _ | PrintOut _ | DisplayOut _ | JsonDump _ _ | CloseFile _ => unit
  | GetEnv _ => option string
  | OpenFile _ _ => file
  end.

Inductive call :=
| Ext (c : ext_call)
| Rt (c : rt_call).

Definition resp (c : call) : Type :=
  match c with
  | Ext c => ext_resp c
  | Rt c => rt_resp c
  end.

(** One line of the log: a call and how it ended. *)
Inductive entry :=
| Called (c : call) (r : exn + resp c).

(** *** Programs

    A cell is a tree of calls; each call's continuation receives its
    answer.  [WithOpen path mode body k] is
    [with open(path, mode) as f: body] followed by [k]. *)
Inductive prog (R : Type) : Type :=
| Ret (r : R)
| Raise (e : exn)
| Call (c : call) (k : resp c -> prog R)
| WithOpen (path mode : string) (body : file -> prog unit) (k : unit -> prog R).

Arguments Ret {R} r.
Arguments Raise {R} e.
Arguments Call {R} c k.
Arguments WithOpen {R} path mode body k.

Fixpoint bind {A B : Type} (p : prog A) (f : A -> prog B) : prog B :=
  match p with
  | Ret r => f r
  | Raise e => Raise e
  | Call c k => Call c (fun x => bind (k x) f)
  | WithOpen path mode body k => WithOpen path mode body (fun u => bind (k u) f)
  end.

Declare Scope prog_scope.
Delimit Scope prog_scope with prog.
Bind Scope prog_scope with prog.

Notation "x <- p ;; q" := (bind p (fun x => q))
  (at level 100, p at next level, right associativity) : prog_scope.
Notation "p ;; q" := (bind p (fun _ => q))
  (at level 100, right associativity) : prog_scope.

(** A library function that runs in the notebook's own process and either
    returns or raises. *)
Definition lift {A : Type} (r : exn + A) : prog A :=
  match r with
  | inl e => Raise e
  | inr a => Ret a
  end.

(** *** The process *)

Record file_entry := { f_path : string; f_writable : bool; f_closed : bool }.

(** The process of the kernel.  [sdk] is all that the SDK keeps between
    calls; [fs] is the working directory, by path, and [files] are the
    file objects that the cells' own [open] created. *)
Record Process (W : Type) := {
  sdk : W;
  environ : gmap string string;
  fs : gmap string string;
  files : list file_entry;
  stdout : string;
  displayed : list shown;
  log : list entry
}.

Arguments sdk {W} _.
Arguments environ {W} _.
Arguments fs {W} _.
Arguments files {W} _.
Arguments stdout {W} _.
Arguments displayed {W} _.
Arguments log {W} _.

(** The SDK's side of a call: given the environment variables and the
    SDK's own state (its configuration, the account it stored, its
    session, the remote service), an exception or an answer, and the
    SDK's next state. *)
Definition handler (W : Type) : Type :=
  forall c : ext_call, gmap string string -> W -> (exn + ext_resp c) * W.

Section Run.

Context {W : Type}.

Definition set_sdk (w : W) (s : Process W) : Process W :=
  {| sdk := w; environ := environ s; fs := fs s; files := files s;
     stdout := stdout s; displayed := displayed s; log := log s |}.

Definition set_fs (m : gmap string string) (s : Process W) : Process W :=
  {| sdk := sdk s; environ := environ s; fs := m; files := files s;
     stdout := stdout s; displayed := displayed s; log := log s |}.

Definition set_files (l : list file_entry) (s : Process W) : Process W :=
  {| sdk := sdk s; environ := environ s; fs := fs s; files := l;
     stdout := stdout s; displayed := displayed s; log := log s |}.

Definition set_stdout (out : string) (s : Process W) : Process W :=
  {| sdk := sdk s; environ := environ s; fs := fs s; files := files s;
     stdout := out; displayed := displayed s; log := log s |}.

Definition set_displayed (l : list shown) (s : Process W) : Process W :=
  {| sdk := sdk s; environ := environ s; fs := fs s; files := files s;
     stdout := stdout s; displayed := l; log := log s |}.

Definition set_log (l : list entry) (s : Process W) : Process W :=
  {| sdk := sdk s; environ := environ s; fs := fs s; files := files s;
     stdout := stdout s; displayed := displayed s; log := l |}.

Definition set_environ (m : gmap string string) (s : Process W) : Process W :=
  {| sdk := sdk s; environ := m; fs := fs s; files := files s;
     stdout := stdout s; displayed := displayed s; log := log s |}.

(** [open(path, mode)] for the text modes [r], [w], [a] and [x].  The file
    system is a map from paths to contents, without directories or
    permissions: [w] creates the file or empties it, [a] creates it or
    keeps it, [x] refuses an existing file, [r] a missing one. *)
Definition new_file (path : string) (writable : bool) (s : Process W) : Process W :=
  set_files (files s ++ [{| f_path := path; f_writable := writable; f_closed := false |}]) s.

Definition open_file (path mode : string) (s : Process W) : (exn + file) * Process W :=
  let f := length (files s) in
  if String.eqb mode "w" then
    (inr f, new_file path true (set_fs (<[path := ""]> (fs s)) s))
  else if String.eqb mode "a" then
    match fs s !! path with
    | Some _ => (inr f, new_file path true s)
    | None => (inr f, new_file path true (set_fs (<[path := ""]> (fs s)) s))
    end
  else if String.eqb mode "x" then
    match fs s !! path with
    | Some _ => (inl (Exn "FileExistsError" path), s)
    | None => (inr f, new_file path true (set_fs (<[path := ""]> (fs s)) s))
    end
  else if String.eqb mode "r" then
    match fs s !! path with
    | Some _ => (inr f, new_file path false s)
    | None => (inl (Exn "FileNotFoundError" path), s)
    end
  else (inl (Exn "ValueError" ("invalid mode: " +:+ mode)), s).

(** [f.write(text)] at the end of the file. *)
Definition write_file (f : file) (text : string) (s : Process W) : (exn + unit) * Process W :=
  match files s !! f with
  | None => (inl (Exn "ValueError" "I/O operation on closed file."), s)
  | Some e =>
      if f_closed e then (inl (Exn "ValueError" "I/O operation on closed file."), s)
      else if negb (f_writable e) then (inl (Exn "UnsupportedOperation" "not writable"), s)
      else (inr tt,
            set_fs (<[f_path e := default "" (fs s !! f_path e) +:+ text]> (fs s)) s)
  end.

(** [f.close()], which the [with] statement calls on the way out. *)
Definition closed (f : file) (l : list file_entry) : list file_entry :=
  alter (fun e => {| f_path := f_path e; f_writable := f_writable e; f_closed := true |})
        f l.

Definition close_file (f : file) (s : Process W) : Process W :=
  set_files (closed f (files s)) s.

Definition rt_step (c : rt_call) (s : Process W) : (exn + rt_resp c) * Process W :=
  match c as c0 return (exn + rt_resp c0) * Process W with
  | ExecuteCell _ => (inr tt, s)
  | PrintOut args => (inr tt, set_stdout (stdout s +:+ print_text args) s)
  | DisplayOut v => (inr tt, set_displayed (displayed s ++ [v]) s)
  | GetEnv name => (inr (environ s !! name), s)
  | OpenFile path mode => open_file path mode s
  | JsonDump c f => write_file f (json_dumps c) s
  | CloseFile f => (inr tt, close_file f s)
  end.

Variable h : handler W.

(** A call is answered, by the SDK or by the runtime, and logged. *)
Definition logged (e : entry) (s : Process W) : Process W :=
  set_log (log s ++ [e]) s.

Definition perform (c : call) (s : Process W) : (exn + resp c) * Process W :=
  let rs :=
    match c as c0 return (exn + resp c0) * Process W with
    | Ext c => let rw := h c (environ s) (sdk s) in (fst rw, set_sdk (snd rw) s)
    | Rt c => rt_step c s
    end in
  (fst rs, logged (Called c (fst rs)) (snd rs)).

(** The way out of a [with] block whose body ended as [rb]: the file is
    closed; an exception of the body goes on from there, and otherwise the
    statements after the block run. *)
Definition with_exit {R : Type} (f : file) (rb : (exn + unit) * Process W)
    (rest : Process W -> (exn + R) * Process W) : (exn + R) * Process W :=
  let rc := perform (Rt (CloseFile f)) (snd rb) in
  match fst rb with
  | inl e => (inl e, snd rc)
  | inr _ => rest (snd rc)
  end.

(** Running a program: the first exception ends it. *)
Fixpoint run {R : Type} (p : prog R) (s : Process W) : (exn + R) * Process W :=
  match p with
  | Ret r => (inr r, s)
  | Raise e => (inl e, s)
  | Call c k =>
      let rs := perform c s in
      match fst rs with
      | inl e => (inl e, snd rs)
      | inr x => run (k x) (snd rs)
      end
  | WithOpen path mode body k =>
      let rs := perform (Rt (OpenFile path mode)) s in
      match fst rs with
      | inl e => (inl e, snd rs)
      | inr f => with_exit f (run (body f) (snd rs)) (run (k tt))
      end
  end.

End Run.

(** A fresh process: nothing printed, displayed, opened or logged yet. *)
Definition boot {W : Type} (w : W) (env fs0 : gmap string string) : Process W :=
  {| sdk := w; environ := env; fs := fs0; files := []; stdout := "";
     displayed := []; log := [] |}.

End Kernel.

(** ** Reading a log *)

Module Trace.

Import Py Kernel.

Definition call_of (e : entry) : call :=
  match e with Called c _ => c end.

(** The exception a call ended with, if it raised. *)
Definition raised (e : entry) : option exn :=
  match e with
  | Called _ (inl x) => Some x
  | Called _ (inr _) => None
  end.

(** The calls into the SDK, in the order they were made. *)
Fixpoint ext_calls (l : list entry) : list ext_call :=
  match l with
  | [] => []
  | Called (Ext c) _ :: rest => c :: ext_calls rest
  | Called (Rt _) _ :: rest => ext_calls rest
  end.

(** The cells that were run, in the order they were run. *)
Fixpoint steps_of (l : list entry) : list step :=
  match l with
  | [] => []
  | Called (Rt (ExecuteCell s)) _ :: rest => s :: steps_of rest
  | _ :: rest => steps_of rest
  end.

(** Every entry paired with the cell it belongs to. *)
Fixpoint by_step (current : option step) (l : list entry) : list (option step * entry) :=
  match l with
  | [] => []
  | e :: rest =>
      match call_of e with
      | Rt (ExecuteCell s) => (Some s, e) :: by_step (Some s) rest
      | _ => (current, e) :: by_step current rest
      end
  end.

(** The job and the status of an answered [job.status()]. *)
Definition reported (e : entry) : option (Job * JobStatus) :=
  match e with
  | Called (Ext (JobStatusOf j)) (inr st) => Some (j, st)
  | _ => None
  end.

(** The job of an answered [execute]. *)
Definition accepted (e : entry) : option Job :=
  match e with
  | Called (Ext (Execute _ _ _)) (inr j) => Some j
  | _ => None
  end.

(** Whether every [job.result()] of the log comes after a [job.status()]
    that answered [DONE]; [done] tells whether one was seen already. *)
Fixpoint result_awaits_done (done : bool) (l : list entry) : bool :=
  match l with
  | [] => true
  | Called (Ext (JobResultOf _)) _ :: rest => done && result_awaits_done done rest
  | Called (Ext (JobStatusOf _)) (inr DONE) :: rest => result_awaits_done true rest
  | _ :: rest => result_awaits_done done rest
  end.

(** The jobs whose status was asked. *)
Fixpoint status_queries (l : list ext_call) : list Job :=
  match l with
  | [] => []
  | JobStatusOf j :: rest => j :: status_queries rest
  | _ :: rest => status_queries rest
  end.

(** The circuits handed to [execute]. *)
Fixpoint submitted (l : list ext_call) : list Qiskit.Circuit :=
  match l with
  | [] => []
  | Execute c _ _ :: rest => c :: submitted rest
  | _ :: rest => submitted rest
  end.

(** The results that [job.result()] returned, and the counts that
    [get_counts] returned, in order. *)
Fixpoint results_returned (l : list entry) : list Result :=
  match l with
  | [] => []
  | Called (Ext (JobResultOf _)) (inr r) :: rest => r :: results_returned rest
  | _ :: rest => results_returned rest
  end.

Fixpoint counts_returned (l : list entry) : list Counts :=
  match l with
  | [] => []
  | Called (Ext (GetCounts _)) (inr c) :: rest => c :: counts_returned rest
  | _ :: rest => counts_returned rest
  end.

(** The backend statuses that [backend.status()] returned, in order. *)
Fixpoint statuses_returned (l : list entry) : list BackendStatus :=
  match l with
  | [] => []
  | Called (Ext (BackendStatusOf _)) (inr st) :: rest => st :: statuses_returned rest
  | _ :: rest => statuses_returned rest
  end.

(** The objects the SDK returned last: the backend of the latest
    [get_backend], the job of the latest [execute] or [retrieve_job], the
    result of the latest [job.result()], the counts of the latest
    [get_counts]. *)
Record held := {
  held_backend : option Backend;
  held_job : option Job;
  held_result : option Result;
  held_counts : option Counts
}.

Definition nothing_held : held :=
  {| held_backend := None; held_job := None; held_result := None; held_counts := None |}.

Definition learn (k : held) (e : entry) : held :=
  match e with
  | Called (Ext (GetBackend _)) (inr b) =>
      {| held_backend := Some b; held_job := held_job k;
         held_result := held_result k; held_counts := held_counts k |}
  | Called (Ext (Execute _ _ _)) (inr j) =>
      {| held_backend := held_backend k; held_job := Some j;
         held_result := held_result k; held_counts := held_counts k |}
  | Called (Ext (RetrieveJob _ _)) (inr j) =>
      {| held_backend := held_backend k; held_job := Some j;
         held_result := held_result k; held_counts := held_counts k |}
  | Called (Ext (JobResultOf _)) (inr r) =>
      {| held_backend := held_backend k; held_job := held_job k;
         held_result := Some r; held_counts := held_counts k |}
  | Called (Ext (GetCounts _)) (inr c) =>
      {| held_backend := held_backend k; held_job := held_job k;
         held_result := held_result k; held_counts := Some c |}
  | _ => k
  end.

(** A call whose arguments are the literals of the source and, for the
    objects of the SDK, the ones returned last. *)
Definition hands_back (k : held) (c : call) : Prop :=
  match c with
  | Ext (SaveAccount user_name) => user_name = "first.last@company.com"
  | Ext (GetBackend device) => device = "H1-2E"
  | Ext (BackendStatusOf b) => held_backend k = Some b
  | Ext (Draw circuit) => circuit = Qiskit.bell_test
  | Ext (Execute circuit b shots) =>
      circuit = Qiskit.bell_test /\ held_backend k = Some b /\ shots = 100
  | Ext (RetrieveJob b job_id) =>
      held_backend k = Some b /\ job_id = "insert job id"
  | Ext (JobStatusOf j) | Ext (JobResultOf j) => held_job k = Some j
  | Ext (GetCounts r) => held_result k = Some r
  | Ext (PlotHistogram c) | Rt (JsonDump c _) => held_counts k = Some c
  | Rt (OpenFile path mode) =>
      mode = "w" /\
      exists r, held_result k = Some r /\ path = "results_" +:+ job_id r +:+ ".json"
  | _ => True
  end.

Fixpoint handed_back (k : held) (l : list entry) : Prop :=
  match l with
  | [] => True
  | e :: rest => hands_back k (call_of e) /\ handed_back (learn k e) rest
  end.

(** The callee of a call into the SDK, as the cells write it. *)
Definition callee (c : ext_call) : string :=
  match c with
  | Import _ _ => "import"
  | SaveAccount _ => "Quantinuum.save_account"
  | LoadAccount => "Quantinuum.load_account"
  | Backends => "Quantinuum.backends"
  | GetBackend _ => "Quantinuum.get_backend"
  | BackendStatusOf _ => "backend.status"
  | Draw _ => "circuit.draw"
  | Execute _ _ _ => "execute"
  | JobStatusOf _ => "job.status"
  | JobResultOf _ => "job.result"
  | GetCounts _ => "result.get_counts"
  | PlotHistogram _ => "plot_histogram"
  | RetrieveJob _ _ => "backend.retrieve_job"
  end.

(** What a call does outside the kernel's memory. *)
Inductive effect := SdkCall | Display | CellStart | FileOp | EnvRead.

Definition effect_of (c : call) : effect :=
  match c with
  | Ext _ => SdkCall
  | Rt (ExecuteCell _) => CellStart
  | Rt (PrintOut _) | Rt (DisplayOut _) => Display
  | Rt (OpenFile _ _) | Rt (JsonDump _ _) | Rt (CloseFile _) => FileOp
  | Rt (GetEnv _) => EnvRead
  end.

(** The file operations of the cells' own code, in order. *)
Fixpoint file_ops (l : list entry) : list call :=
  match l with
  | [] => []
  | e :: rest =>
      match effect_of (call_of e) with
      | FileOp => call_of e :: file_ops rest
      | _ => file_ops rest
      end
  end.

(** [P x rest] for every element [x] of the list and the elements [rest]
    after it. *)
Fixpoint each_with_rest {A : Type} (P : A -> list A -> Prop) (l : list A) : Prop :=
  match l with
  | [] => True
  | x :: rest => P x rest /\ each_with_rest P rest
  end.

(** A program that never reads the environment variables. *)
Fixpoint env_free {R : Type} (p : prog R) : Prop :=
  match p with
  | Ret _ | Raise _ => True
  | Call c k => effect_of c <> EnvRead /\ forall x, env_free (k x)
  | WithOpen _ _ body k => (forall f, env_free (body f)) /\ forall u, env_free (k u)
  end.

(** Two processes that differ at most in their environment variables. *)
Definition forget_environ {W : Type} (s : Process W) : Process W :=
  set_environ ∅ s.

End Trace.

(** ** The notebook *)

Module Notebook.

Import Py Kernel.

Local Open Scope prog_scope.

Definition ext (c : ext_call) : prog (ext_resp c) := Call (Ext c) Ret.
Definition rt (c : rt_call) : prog (rt_resp c) := Call (Rt c) Ret.

(** The calls of the cells, under the names the cells use. *)
Definition import (module : string) (names : list string) : prog unit :=
  ext (Import module names).
Definition Quantinuum_save_account (user_name : string) : prog unit :=
  ext (SaveAccount user_name).
Definition Quantinuum_load_account : prog unit := ext LoadAccount.
Definition Quantinuum_backends : prog (list Backend) := ext Backends.
Definition Quantinuum_get_backend (device : string) : prog Backend :=
  ext (GetBackend device).
Definition backend_status (backend : Backend) : prog BackendStatus :=
  ext (BackendStatusOf backend).
Definition backend_retrieve_job (backend : Backend) (job_id : string) : prog Job :=
  ext (RetrieveJob backend job_id).
Definition circuit_draw (circuit : Qiskit.Circuit) : prog Drawing :=
  ext (Draw circuit).
Definition execute (circuit : Qiskit.Circuit) (backend : Backend) (shots : Z) : prog Job :=
  ext (Execute circuit backend shots).
Definition job_status (job : Job) : prog JobStatus := ext (JobStatusOf job).
Definition job_result (job : Job) : prog Result := ext (JobResultOf job).
Definition result_get_counts (result : Result) : prog Counts := ext (GetCounts result).
Definition plot_histogram (counts : Counts) : prog Figure := ext (PlotHistogram counts).

Definition print (args : list value) : prog unit := rt (PrintOut args).
Definition display (v : shown) : prog unit := rt (DisplayOut v).
Definition json_dump (obj : Counts) (f : file) : prog unit := rt (JsonDump obj f).
Definition with_open (path mode : string) (body : file -> prog unit) : prog unit :=
  WithOpen path mode body Ret.

(** Running a cell: the front end sends it to the kernel, which runs its
    statements. *)
Definition cell {R : Type} (s : step) (body : prog R) : prog R :=
  rt (ExecuteCell s) ;; body.

(** Source lines 34-38. *)
Definition cell_imports : prog unit :=
  import "numpy" [] ;;
  import "qiskit" ["QuantumCircuit"; "execute"] ;;
  import "qiskit_quantinuum" ["Quantinuum"] ;;
  import "qiskit.visualization" ["plot_histogram"].

(** Source lines 56-57. *)
Definition cell_account : prog unit :=
  Quantinuum_save_account "first.last@company.com" ;;
  Quantinuum_load_account.

(** Source line 73. *)
Definition cell_backends : prog unit :=
  l <- Quantinuum_backends ;;
  display (ShownBackends l).

(** Source lines 97-101.  The cell binds [device], [backend] and [status];
    later cells use [backend]. *)
Definition cell_backend_status : prog Backend :=
  let device := "H1-2E" in
  backend <- Quantinuum_get_backend device ;;
  status <- backend_status backend ;;
  print [VStr device; VStr "status :"; VStr (status_msg status)] ;;
  Ret backend.

(** Source lines 153-159.  The methods of the circuit change it in place;
    here each returns the changed circuit. *)
Definition cell_circuit : prog Qiskit.Circuit :=
  let n_qubits := 2 in
  circuit <- lift (Qiskit.QuantumCircuit n_qubits n_qubits "Bell Test") ;;
  circuit <- lift (Qiskit.h 0 circuit) ;;
  circuit <- lift (Qiskit.cx 0 1 circuit) ;;
  let circuit := Qiskit.measure_all circuit in
  drawing <- circuit_draw circuit ;;
  display (ShownDrawing drawing) ;;
  Ret circuit.

(** Source lines 179-180. *)
Definition cell_submit (circuit : Qiskit.Circuit) (backend : Backend) : prog Job :=
  let shots := 100 in
  execute circuit backend shots.

(** Source line 209. *)
Definition cell_job_status (job : Job) : prog unit :=
  status <- job_status job ;;
  display (ShownJobStatus status).

(** Source lines 236-239. *)
Definition cell_result (job : Job) : prog Result :=
  result <- job_result job ;;
  print [VStr "Job ID:"; VStr (job_id result)] ;;
  print [VStr "Job success:"; VBool (success result)] ;;
  Ret result.

(** Source lines 267-268. *)
Definition cell_counts (result : Result) : prog Counts :=
  counts <- result_get_counts result ;;
  print [VStr "Total count for 00 and 11 are:"; VCounts counts] ;;
  Ret counts.

(** Source line 286. *)
Definition cell_plot (counts : Counts) : prog unit :=
  figure <- plot_histogram counts ;;
  display (ShownFigure figure).

(** The name of the results file, [f'results_{result.job_id}.json']. *)
Definition results_path (result : Result) : string :=
  "results_" +:+ job_id result +:+ ".json".

(** Source lines 304-307. *)
Definition cell_save (result : Result) : prog unit :=
  import "json" [] ;;
  with_open (results_path result) "w" (fun f =>
    counts <- result_get_counts result ;;
    json_dump counts f).

(** Source lines 327-333. *)
Definition cell_past_job : prog unit :=
  let device := "H1-2E" in
  let job_id := "insert job id" in
  backend <- Quantinuum_get_backend device ;;
  job <- backend_retrieve_job backend job_id ;;
  result <- job_result job ;;
  counts <- result_get_counts result ;;
  print [VCounts counts].

(** The code cells from top to bottom, in one kernel. *)
Definition notebook : prog unit :=
  cell StepImports cell_imports ;;
  cell StepCredentials cell_account ;;
  cell StepDiscovery cell_backends ;;
  backend <- cell StepBackendStatus cell_backend_status ;;
  circuit <- cell StepCircuit cell_circuit ;;
  job <- cell StepSubmit (cell_submit circuit backend) ;;
  cell StepJobStatus (cell_job_status job) ;;
  result <- cell StepResult (cell_result job) ;;
  counts <- cell StepCounts (cell_counts result) ;;
  cell StepPlot (cell_plot counts) ;;
  cell StepSave (cell_save result) ;;
  cell StepPastJob cell_past_job.

(** The cells in document order, and the ten steps the specification
    lists. *)
Definition all_steps : list step :=
  [ StepImports; StepCredentials; StepDiscovery; StepBackendStatus; StepCircuit;
    StepSubmit; StepJobStatus; StepResult; StepCounts; StepPlot; StepSave;
    StepPastJob ].

Definition listed_steps : list step :=
  [ StepCredentials; StepDiscovery; StepBackendStatus; StepCircuit; StepSubmit;
    StepJobStatus; StepResult; StepCounts; StepPlot; StepSave ].

(** The callees of the SDK calls of a complete run, in order. *)
Definition sdk_plan : list string :=
  [ "import"; "import"; "import"; "import";
    "Quantinuum.save_account"; "Quantinuum.load_account";
    "Quantinuum.backends";
    "Quantinuum.get_backend"; "backend.status";
    "circuit.draw";
    "execute";
    "job.status";
    "job.result";
    "result.get_counts";
    "plot_histogram";
    "import"; "result.get_counts";
    "Quantinuum.get_backend"; "backend.retrieve_job"; "job.result";
    "result.get_counts" ].

(** The environment variable that may hold the credentials. *)
Definition QUANTINUUM_API_KEY : string := "QUANTINUUM_API_KEY".

End Notebook.

(** ** The notebook cell by cell, in one kernel

    A kernel keeps the names the cells bind; a cell reads the names it uses
    when it uses them, and a name that no cell has bound yet raises
    [NameError].  Each cell is the list of its statements, in the order and
    with the lookups of the source. *)

Module Session.

Import Py Kernel Notebook.

Local Open Scope prog_scope.

(** The global names of the kernel: those bound by the import statements,
    and the variables the cells assign. *)
Record Namespace := {
  imported : list string;
  v_device : option string;
  v_backend : option Backend;
  v_status : option BackendStatus;
  v_n_qubits : option Z;
  v_circuit : option Qiskit.Circuit;
  v_shots : option Z;
  v_job : option Job;
  v_result : option Result;
  v_counts : option Counts;
  v_job_id : option string;
  v_f : option file
}.

Definition empty : Namespace :=
  {| imported := []; v_device := None; v_backend := None; v_status := None;
     v_n_qubits := None; v_circuit := None; v_shots := None; v_job := None;
     v_result := None; v_counts := None; v_job_id := None; v_f := None |}.

Definition bind_imports (names : list string) (ns : Namespace) : Namespace :=
  {| imported := imported ns ++ names; v_device := v_device ns;
     v_backend := v_backend ns; v_status := v_status ns; v_n_qubits := v_n_qubits ns;
     v_circuit := v_circuit ns; v_shots := v_shots ns; v_job := v_job ns;
     v_result := v_result ns; v_counts := v_counts ns; v_job_id := v_job_id ns;
     v_f := v_f ns |}.

Definition set_device (x : string) (ns : Namespace) : Namespace :=
  {| imported := imported ns; v_device := Some x;
     v_backend := v_backend ns; v_status := v_status ns; v_n_qubits := v_n_qubits ns;
     v_circuit := v_circuit ns; v_shots := v_shots ns; v_job := v_job ns;
     v_result := v_result ns; v_counts := v_counts ns; v_job_id := v_job_id ns;
     v_f := v_f ns |}.

Definition set_backend (x : Backend) (ns : Namespace) : Namespace :=
  {| imported := imported ns; v_device := v_device ns;
     v_backend := Some x; v_status := v_status ns; v_n_qubits := v_n_qubits ns;
     v_circuit := v_circuit ns; v_shots := v_shots ns; v_job := v_job ns;
     v_result := v_result ns; v_counts := v_counts ns; v_job_id := v_job_id ns;
     v_f := v_f ns |}.

Definition set_status (x : BackendStatus) (ns : Namespace) : Namespace :=
  {| imported := imported ns; v_device := v_device ns;
     v_backend := v_backend ns; v_status := Some x; v_n_qubits := v_n_qubits ns;
     v_circuit := v_circuit ns; v_shots := v_shots ns; v_job := v_job ns;
     v_result := v_result ns; v_counts := v_counts ns; v_job_id := v_job_id ns;
     v_f := v_f ns |}.

Definition set_n_qubits (x : Z) (ns : Namespace) : Namespace :=
  {| imported := imported ns; v_device := v_device ns;
     v_backend := v_backend ns; v_status := v_status ns; v_n_qubits := Some x;
     v_circuit := v_circuit ns; v_shots := v_shots ns; v_job := v_job ns;
     v_result := v_result ns; v_counts := v_counts ns; v_job_id := v_job_id ns;
     v_f := v_f ns |}.

Definition set_circuit (x : Qiskit.Circuit) (ns : Namespace) : Namespace :=
  {| imported := imported ns; v_device := v_device ns;
     v_backend := v_backend ns; v_status := v_status ns; v_n_qubits := v_n_qubits ns;
     v_circuit := Some x; v_shots := v_shots ns; v_job := v_job ns;
     v_result := v_result ns; v_counts := v_counts ns; v_job_id := v_job_id ns;
     v_f := v_f ns |}.

Definition set_shots (x : Z) (ns : Namespace) : Namespace :=
  {| imported := imported ns; v_device := v_device ns;
     v_backend := v_backend ns; v_status := v_status ns; v_n_qubits := v_n_qubits ns;
     v_circuit := v_circuit ns; v_shots := Some x; v_job := v_job ns;
     v_result := v_result ns; v_counts := v_counts ns; v_job_id := v_job_id ns;
     v_f := v_f ns |}.

Definition set_job (x : Job) (ns : Namespace) : Namespace :=
  {| imported := imported ns; v_device := v_device ns;
     v_backend := v_backend ns; v_status := v_status ns; v_n_qubits := v_n_qubits ns;
     v_circuit := v_circuit ns; v_shots := v_shots ns; v_job := Some x;
     v_result := v_result ns; v_counts := v_counts ns; v_job_id := v_job_id ns;
     v_f := v_f ns |}.

Definition set_result (x : Result) (ns : Namespace) : Namespace :=
  {| imported := imported ns; v_device := v_device ns;
     v_backend := v_backend ns; v_status := v_status ns; v_n_qubits := v_n_qubits ns;
     v_circuit := v_circuit ns; v_shots := v_shots ns; v_job := v_job ns;
     v_result := Some x; v_counts := v_counts ns; v_job_id := v_job_id ns;
     v_f := v_f ns |}.

Definition set_counts (x : Counts) (ns : Namespace) : Namespace :=
  {| imported := imported ns; v_device := v_device ns;
     v_backend := v_backend ns; v_status := v_status ns; v_n_qubits := v_n_qubits ns;
     v_circuit := v_circuit ns; v_shots := v_shots ns; v_job := v_job ns;
     v_result := v_result ns; v_counts := Some x; v_job_id := v_job_id ns;
     v_f := v_f ns |}.

Definition set_job_id (x : string) (ns : Namespace) : Namespace :=
  {| imported := imported ns; v_device := v_device ns;
     v_backend := v_backend ns; v_status := v_status ns; v_n_qubits := v_n_qubits ns;
     v_circuit := v_circuit ns; v_shots := v_shots ns; v_job := v_job ns;
     v_result := v_result ns; v_counts := v_counts ns; v_job_id := Some x;
     v_f := v_f ns |}.

Definition set_f (x : file) (ns : Namespace) : Namespace :=
  {| imported := imported ns; v_device := v_device ns;
     v_backend := v_backend ns; v_status := v_status ns; v_n_qubits := v_n_qubits ns;
     v_circuit := v_circuit ns; v_shots := v_shots ns; v_job := v_job ns;
     v_result := v_result ns; v_counts := v_counts ns; v_job_id := v_job_id ns;
     v_f := Some x |}.

Definition NameError (name : string) : exn :=
  Exn "NameError" ("name '" +:+ name +:+ "' is not defined").

(** Reading a variable, and reading a name that an import binds. *)
Definition global {A : Type} (name : string) (v : option A) : prog A :=
  match v with
  | Some a => Ret a
  | None => Raise (NameError name)
  end.

Definition name (n : string) (ns : Namespace) : prog unit :=
  if existsb (String.eqb n) (imported ns) then Ret tt else Raise (NameError n).

(** A statement either binds names and goes on, or raises and leaves the
    names as they were.  The [with] statement evaluates the path, opens
    the file, binds it to [f], which stays bound afterwards, and runs its
    body, which binds nothing here. *)
Inductive stmt :=
| Do (body : Namespace -> prog Namespace)
| With (path : Namespace -> prog string) (mode : string)
       (body : Namespace -> prog unit).

Record cell := { label : step; stmts : list stmt }.

(** Source lines 34-38. *)
Definition c_imports : cell :=
  {| label := StepImports;
     stmts :=
       [ Do (fun ns => import "numpy" [] ;; Ret (bind_imports ["np"] ns));
         Do (fun ns => import "qiskit" ["QuantumCircuit"; "execute"] ;;
                       Ret (bind_imports ["QuantumCircuit"; "execute"] ns));
         Do (fun ns => import "qiskit_quantinuum" ["Quantinuum"] ;;
                       Ret (bind_imports ["Quantinuum"] ns));
         Do (fun ns => import "qiskit.visualization" ["plot_histogram"] ;;
                       Ret (bind_imports ["plot_histogram"] ns)) ] |}.

(** Source lines 56-57. *)
Definition c_account : cell :=
  {| label := StepCredentials;
     stmts :=
       [ Do (fun ns => name "Quantinuum" ns ;;
                       Quantinuum_save_account "first.last@company.com" ;;
                       Ret ns);
         Do (fun ns => name "Quantinuum" ns ;; Quantinuum_load_account ;; Ret ns) ] |}.

(** Source line 73. *)
Definition c_backends : cell :=
  {| label := StepDiscovery;
     stmts :=
       [ Do (fun ns => name "Quantinuum" ns ;;
                       l <- Quantinuum_backends ;;
                       display (ShownBackends l) ;;
                       Ret ns) ] |}.

(** Source lines 97-101. *)
Definition c_backend_status : cell :=
  {| label := StepBackendStatus;
     stmts :=
       [ Do (fun ns => Ret (set_device "H1-2E" ns));
         Do (fun ns => name "Quantinuum" ns ;;
                       device <- global "device" (v_device ns) ;;
                       backend <- Quantinuum_get_backend device ;;
                       Ret (set_backend backend ns));
         Do (fun ns => backend <- global "backend" (v_backend ns) ;;
                       status <- backend_status backend ;;
                       Ret (set_status status ns));
         Do (fun ns => device <- global "device" (v_device ns) ;;
                       status <- global "status" (v_status ns) ;;
                       print [VStr device; VStr "status :"; VStr (status_msg status)] ;;
                       Ret ns) ] |}.

(** Source lines 153-159.  The circuit is changed in place by its methods:
    the variable then holds the changed circuit. *)
Definition c_circuit : cell :=
  {| label := StepCircuit;
     stmts :=
       [ Do (fun ns => Ret (set_n_qubits 2 ns));
         Do (fun ns => name "QuantumCircuit" ns ;;
                       n_qubits <- global "n_qubits" (v_n_qubits ns) ;;
                       n_clbits <- global "n_qubits" (v_n_qubits ns) ;;
                       circuit <- lift (Qiskit.QuantumCircuit n_qubits n_clbits "Bell Test") ;;
                       Ret (set_circuit circuit ns));
         Do (fun ns => circuit <- global "circuit" (v_circuit ns) ;;
                       circuit <- lift (Qiskit.h 0 circuit) ;;
                       Ret (set_circuit circuit ns));
         Do (fun ns => circuit <- global "circuit" (v_circuit ns) ;;
                       circuit <- lift (Qiskit.cx 0 1 circuit) ;;
                       Ret (set_circuit circuit ns));
         Do (fun ns => circuit <- global "circuit" (v_circuit ns) ;;
                       Ret (set_circuit (Qiskit.measure_all circuit) ns));
         Do (fun ns => circuit <- global "circuit" (v_circuit ns) ;;
                       drawing <- circuit_draw circuit ;;
                       display (ShownDrawing drawing) ;;
                       Ret ns) ] |}.

(** Source lines 179-180. *)
Definition c_submit : cell :=
  {| label := StepSubmit;
     stmts :=
       [ Do (fun ns => Ret (set_shots 100 ns));
         Do (fun ns => name "execute" ns ;;
                       circuit <- global "circuit" (v_circuit ns) ;;
                       backend <- global "backend" (v_backend ns) ;;
                       shots <- global "shots" (v_shots ns) ;;
                       job <- execute circuit backend shots ;;
                       Ret (set_job job ns)) ] |}.

(** Source line 209. *)
Definition c_job_status : cell :=
  {| label := StepJobStatus;
     stmts :=
       [ Do (fun ns => job <- global "job" (v_job ns) ;;
                       status <- job_status job ;;
                       display (ShownJobStatus status) ;;
                       Ret ns) ] |}.

(** Source lines 236-239. *)
Definition c_result : cell :=
  {| label := StepResult;
     stmts :=
       [ Do (fun ns => job <- global "job" (v_job ns) ;;
                       result <- job_result job ;;
                       Ret (set_result result ns));
         Do (fun ns => result <- global "result" (v_result ns) ;;
                       print [VStr "Job ID:"; VStr (job_id result)] ;;
                       Ret ns);
         Do (fun ns => result <- global "result" (v_result ns) ;;
                       print [VStr "Job success:"; VBool (success result)] ;;
                       Ret ns) ] |}.

(** Source lines 267-268. *)
Definition c_counts : cell :=
  {| label := StepCounts;
     stmts :=
       [ Do (fun ns => result <- global "result" (v_result ns) ;;
                       counts <- result_get_counts result ;;
                       Ret (set_counts counts ns));
         Do (fun ns => counts <- global "counts" (v_counts ns) ;;
                       print [VStr "Total count for 00 and 11 are:"; VCounts counts] ;;
                       Ret ns) ] |}.

(** Source line 286. *)
Definition c_plot : cell :=
  {| label := StepPlot;
     stmts :=
       [ Do (fun ns => name "plot_histogram" ns ;;
                       counts <- global "counts" (v_counts ns) ;;
                       figure <- plot_histogram counts ;;
                       display (ShownFigure figure) ;;
                       Ret ns) ] |}.

(** Source lines 304-307. *)
Definition c_save : cell :=
  {| label := StepSave;
     stmts :=
       [ Do (fun ns => import "json" [] ;; Ret (bind_imports ["json"] ns));
         With (fun ns => result <- global "result" (v_result ns) ;;
                         Ret (results_path result))
              "w"
              (fun ns => name "json" ns ;;
                         result <- global "result" (v_result ns) ;;
                         counts <- result_get_counts result ;;
                         f <- global "f" (v_f ns) ;;
                         json_dump counts f) ] |}.

(** Source lines 327-333. *)
Definition c_past_job : cell :=
  {| label := StepPastJob;
     stmts :=
       [ Do (fun ns => Ret (set_device "H1-2E" ns));
         Do (fun ns => Ret (set_job_id "insert job id" ns));
         Do (fun ns => name "Quantinuum" ns ;;
                       device <- global "device" (v_device ns) ;;
                       backend <- Quantinuum_get_backend device ;;
                       Ret (set_backend backend ns));
         Do (fun ns => backend <- global "backend" (v_backend ns) ;;
                       job_id <- global "job_id" (v_job_id ns) ;;
                       job <- backend_retrieve_job backend job_id ;;
                       Ret (set_job job ns));
         Do (fun ns => job <- global "job" (v_job ns) ;;
                       result <- job_result job ;;
                       Ret (set_result result ns));
         Do (fun ns => result <- global "result" (v_result ns) ;;
                       counts <- result_get_counts result ;;
                       Ret (set_counts counts ns));
         Do (fun ns => counts <- global "counts" (v_counts ns) ;;
                       print [VCounts counts] ;;
                       Ret ns) ] |}.

(** The code cells in document order. *)
Definition cells : list cell :=
  [ c_imports; c_account; c_backends; c_backend_status; c_circuit; c_submit;
    c_job_status; c_result; c_counts; c_plot; c_save; c_past_job ].

(** How a statement, a cell or a sequence of cells ended, the names bound
    then, and the process. *)
Definition ended (W : Type) : Type := (exn + unit) * Namespace * Process W.

Section RunSession.

Context {W : Type} (h : handler W).

(** What follows a part that ended as [r], if it did not raise. *)
Definition and_then (r : ended W) (next : Namespace -> Process W -> ended W)
  : ended W :=
  match fst (fst r) with
  | inl e => r
  | inr _ => next (snd (fst r)) (snd r)
  end.

(** An expression or a simple statement that ended as [r], in a kernel
    whose names were [ns]. *)
Definition settle {A : Type} (ns : Namespace) (r : (exn + A) * Process W)
    (next : A -> Process W -> ended W) : ended W :=
  match fst r with
  | inl e => (inl e, ns, snd r)
  | inr a => next a (snd r)
  end.

Definition run_stmt (st : stmt) (ns : Namespace) (s : Process W) : ended W :=
  match st with
  | Do body =>
      settle ns (run h (body ns) s) (fun ns' s' => (inr tt, ns', s'))
  | With path mode body =>
      settle ns (run h (path ns) s) (fun p s1 =>
      settle ns (perform h (Rt (OpenFile p mode)) s1) (fun f s2 =>
        let r := with_exit h f (run h (body (set_f f ns)) s2)
                   (fun s3 => (inr tt, s3)) in
        (fst r, set_f f ns, snd r)))
  end.

Fixpoint run_stmts (l : list stmt) (ns : Namespace) (s : Process W) : ended W :=
  match l with
  | [] => (inr tt, ns, s)
  | st :: rest => and_then (run_stmt st ns s) (run_stmts rest)
  end.

(** The front end sends the cell, and the kernel runs its statements. *)
Definition run_cell (c : cell) (ns : Namespace) (s : Process W) : ended W :=
  run_stmts (stmts c) ns (snd (perform h (Rt (ExecuteCell (label c))) s)).

(** Cells run one after the other; the first that raises stops the
    sequence. *)
Fixpoint run_cells (l : list cell) (ns : Namespace) (s : Process W) : ended W :=
  match l with
  | [] => (inr tt, ns, s)
  | c :: rest => and_then (run_cell c ns s) (run_cells rest)
  end.

End RunSession.

End Session.

(** ** An SDK that replays the recorded run

    The answers are those of the outputs stored in the notebook: the
    device is online, the job is done, its identifier and its counts are
    the ones printed. *)
Module Recorded.

Import Py Kernel.

Definition backend : Backend := {| backend_ref := 1%N |}.
Definition job : Job := {| job_ref := 2%N |}.
Definition result : Result :=
  {| result_ref := 3%N; job_id := "f151861654594c8fb718541dede4476d"; success := true |}.
Definition counts : Counts := [("11", 52); ("0", 47); ("1", 1)].

Definition answer (status : JobStatus) (c : ext_call) : ext_resp c :=
  match c with
  | Import _ _ | SaveAccount _ | LoadAccount => tt
  | Backends => [backend]
  | GetBackend _ => backend
  | BackendStatusOf _ => {| status_ref := 4%N; status_msg := "online" |}
  | Draw _ => {| drawing_ref := 5%N |}
  | Execute _ _ _ => job
  | JobStatusOf _ => status
  | JobResultOf _ => result
  | GetCounts _ => counts
  | PlotHistogram _ => {| figure_ref := 6%N |}
  | RetrieveJob _ _ => job
  end.

(** The SDK of the recorded run, and one whose job is still queued when
    its status is asked. *)
Definition sdk_done : handler unit := fun c _ w => (inr (answer DONE c), w).
Definition sdk_queued : handler unit := fun c _ w => (inr (answer QUEUED c), w).

(** An SDK whose [get_counts] raises. *)
Definition no_counts : exn := Exn "QiskitError" "No counts for experiment".
Definition sdk_no_counts : handler unit :=
  fun c _ w =>
    match c with
    | GetCounts _ => (inl no_counts, w)
    | _ => (inr (answer DONE c), w)
    end.

(** An SDK whose [get_counts] answers once and raises from then on; its
    state counts the answers given. *)
Definition sdk_counts_once : handler nat :=
  fun c _ n =>
    match c as c0 return (exn + ext_resp c0) * nat with
    | GetCounts _ =>
        match n with
        | O => (inr counts, S n)
        | S _ => (inl no_counts, n)
        end
    | c0 => (inr (answer DONE c0), n)
    end.

(** An SDK whose [import json] raises. *)
Definition no_json : exn := Exn "ModuleNotFoundError" "No module named 'json'".
Definition sdk_no_json : handler unit :=
  fun c _ w =>
    match c as c0 return (exn + ext_resp c0) * unit with
    | Import "json" _ => (inl no_json, w)
    | c0 => (inr (answer DONE c0), w)
    end.

(** An SDK whose [get_counts] returns, the [n]-th time it is asked, [n]
    shots of [11]; its state counts the answers given. *)
Definition sdk_counting : handler nat :=
  fun c _ n =>
    match c as c0 return (exn + ext_resp c0) * nat with
    | GetCounts _ => (inr [("11", Z.of_nat n)], S n)
    | c0 => (inr (answer DONE c0), n)
    end.

(** An SDK whose [save_account] stores the user name, as the provider
    stores the account it is given for [load_account] to find; its state
    is the store. *)
Definition sdk_storing : handler (list string) :=
  fun c _ store =>
    match c as c0 return (exn + ext_resp c0) * list string with
    | SaveAccount user_name => (inr tt, user_name :: store)
    | c0 => (inr (answer DONE c0), store)
    end.

(** The result of another job. *)
Definition other_result : Result :=
  {| result_ref := 7%N; job_id := "0a1b2c3d4e5f"; success := true |}.

Definition fresh : Process unit := boot tt ∅ ∅.

(** A working directory that already holds a results file of the recorded
    job. *)
Definition stale : gmap string string :=
  {[ "results_f151861654594c8fb718541dede4476d.json" := "stale" ]}.

End Recorded.


(** * Proofs *)

Import Py Kernel Trace Notebook.

(** ** Running a program one call at a time

    The process is written out field by field, so that each step reads
    off the next process without unfolding the previous ones. *)

Section Exec.

Context {W : Type} (h : handler W).

Variables (w : W) (env m : gmap string string) (fl : list file_entry)
  (out : string) (d : list shown) (l : list entry).

Local Notation "'here'" :=
  {| sdk := w; environ := env; fs := m; files := fl; stdout := out;
     displayed := d; log := l |}.

Lemma run_ret {R : Type} (r : R) (s : Process W) : run h (Ret r) s = (inr r, s).
Proof. reflexivity. Qed.

Lemma step_ext_eq {R : Type} (c : ext_call) (k : ext_resp c -> prog R) r w' :
  h c env w = (r, w') ->
  run h (Call (Ext c) k) here
  = match r with
    | inl e =>
        (inl e, {| sdk := w'; environ := env; fs := m; files := fl; stdout := out;
                   displayed := d; log := l ++ [Called (Ext c) (inl e)] |})
    | inr x =>
        run h (k x)
          {| sdk := w'; environ := env; fs := m; files := fl; stdout := out;
             displayed := d; log := l ++ [Called (Ext c) (inr x)] |}
    end.
Proof.
  intros E. cbn [run]. unfold perform. cbn [environ sdk]. rewrite E.
  destruct r; reflexivity.
Qed.

(** Either the SDK raises and the run ends there, or it answers and the
    run goes on with the answer. *)
Lemma step_ext {R : Type} (P : (exn + R) * Process W -> Prop)
    (c : ext_call) (k : ext_resp c -> prog R) :
  (forall e w',
     P (inl e, {| sdk := w'; environ := env; fs := m; files := fl; stdout := out;
                  displayed := d; log := l ++ [Called (Ext c) (inl e)] |})) ->
  (forall x w',
     P (run h (k x)
          {| sdk := w'; environ := env; fs := m; files := fl; stdout := out;
             displayed := d; log := l ++ [Called (Ext c) (inr x)] |})) ->
  P (run h (Call (Ext c) k) here).
Proof.
  intros He Hx. destruct (h c env w) as [r w'] eqn:E.
  rewrite (step_ext_eq c k r w' E). destruct r; auto.
Qed.

Lemma step_cell {R : Type} (st : step) (k : unit -> prog R) :
  run h (Call (Rt (ExecuteCell st)) k) here
  = run h (k tt)
      {| sdk := w; environ := env; fs := m; files := fl; stdout := out;
         displayed := d; log := l ++ [Called (Rt (ExecuteCell st)) (inr tt)] |}.
Proof. reflexivity. Qed.

Lemma step_print {R : Type} (args : list value) (k : unit -> prog R) :
  run h (Call (Rt (PrintOut args)) k) here
  = run h (k tt)
      {| sdk := w; environ := env; fs := m; files := fl;
         stdout := out +:+ print_text args;
         displayed := d; log := l ++ [Called (Rt (PrintOut args)) (inr tt)] |}.
Proof. reflexivity. Qed.

Lemma step_display {R : Type} (v : shown) (k : unit -> prog R) :
  run h (Call (Rt (DisplayOut v)) k) here
  = run h (k tt)
      {| sdk := w; environ := env; fs := m; files := fl; stdout := out;
         displayed := d ++ [v]; log := l ++ [Called (Rt (DisplayOut v)) (inr tt)] |}.
Proof. reflexivity. Qed.

(** [json.dump] into a file that is open for writing. *)
Lemma step_json_dump {R : Type} (c : Counts) (f : file) (path : string)
    (k : unit -> prog R) :
  fl !! f = Some {| f_path := path; f_writable := true; f_closed := false |} ->
  run h (Call (Rt (JsonDump c f)) k) here
  = run h (k tt)
      {| sdk := w; environ := env;
         fs := <[path := default "" (m !! path) +:+ json_dumps c]> m;
         files := fl; stdout := out; displayed := d;
         log := l ++ [Called (Rt (JsonDump c f)) (inr tt)] |}.
Proof.
  intros Hf. cbn [run]. unfold perform. cbn [rt_step]. unfold write_file.
  cbn [files]. rewrite Hf. reflexivity.
Qed.

(** [with open(path, 'w') as f]: the file is created or emptied, and the
    body runs with the new file object. *)
Lemma step_with_w {R : Type} (path : string) (body : file -> prog unit)
    (k : unit -> prog R) :
  run h (WithOpen path "w" body k) here
  = with_exit h (length fl)
      (run h (body (length fl))
         {| sdk := w; environ := env; fs := <[path := ""]> m;
            files := fl ++ [{| f_path := path; f_writable := true; f_closed := false |}];
            stdout := out; displayed := d;
            log := l ++ [Called (Rt (OpenFile path "w")) (inr (length fl))] |})
      (run h (k tt)).
Proof. reflexivity. Qed.

Lemma with_exit_raise {R : Type} (f : file) (e : exn)
    (rest : Process W -> (exn + R) * Process W) :
  with_exit h f (inl e, here) rest
  = (inl e, {| sdk := w; environ := env; fs := m; files := closed f fl; stdout := out;
               displayed := d; log := l ++ [Called (Rt (CloseFile f)) (inr tt)] |}).
Proof. reflexivity. Qed.

Lemma with_exit_return {R : Type} (f : file) (u : unit)
    (rest : Process W -> (exn + R) * Process W) :
  with_exit h f (inr u, here) rest
  = rest {| sdk := w; environ := env; fs := m; files := closed f fl; stdout := out;
            displayed := d; log := l ++ [Called (Rt (CloseFile f)) (inr tt)] |}.
Proof. reflexivity. Qed.

End Exec.

(** ** The environment variables do not reach the notebook's own code *)

Section Environ.

Context {W : Type} (h : handler W).

Lemma open_file_set_environ (path mode : string) (s : Process W) env :
  open_file path mode (set_environ env s)
  = (fst (open_file path mode s), set_environ env (snd (open_file path mode s))).
Proof.
  unfold open_file. cbn [files fs set_environ].
  repeat (destruct (String.eqb mode _); [try destruct (fs s !! path); reflexivity|]).
  reflexivity.
Qed.

Lemma write_file_set_environ (f : file) (text : string) (s : Process W) env :
  write_file f text (set_environ env s)
  = (fst (write_file f text s), set_environ env (snd (write_file f text s))).
Proof.
  unfold write_file. cbn [files fs set_environ].
  destruct (files s !! f) as [fe|]; [|reflexivity].
  destruct (f_closed fe); [reflexivity|].
  destruct (f_writable fe); reflexivity.
Qed.

Lemma rt_step_set_environ (c : rt_call) (s : Process W) env :
  effect_of (Rt c) <> EnvRead ->
  rt_step c (set_environ env s)
  = (fst (rt_step c s), set_environ env (snd (rt_step c s))).
Proof.
  intros Hc. destruct c as [st|args|v|name|path mode|c f|f]; cbn [rt_step fst snd];
    try reflexivity.
  - exfalso. apply Hc. reflexivity.
  - apply open_file_set_environ.
  - apply write_file_set_environ.
Qed.

Lemma perform_set_environ (c : call) (s : Process W) env :
  effect_of c <> EnvRead ->
  (forall c' w, h c' env w = h c' (environ s) w) ->
  perform h c (set_environ env s)
  = (fst (perform h c s), set_environ env (snd (perform h c s))).
Proof.
  intros Hc Hh. destruct c as [c|c]; unfold perform.
  - cbn [environ sdk set_environ]. rewrite Hh. reflexivity.
  - rewrite rt_step_set_environ by exact Hc. reflexivity.
Qed.

Lemma rt_step_environ (c : rt_call) (s : Process W) :
  environ (snd (rt_step c s)) = environ s.
Proof.
  destruct c as [st|args|v|name|path mode|c f|f]; cbn [rt_step fst snd]; try reflexivity.
  - unfold open_file.
    repeat (destruct (String.eqb mode _); [try destruct (fs s !! path); reflexivity|]).
    reflexivity.
  - unfold write_file. destruct (files s !! f) as [fe|]; [|reflexivity].
    destruct (f_closed fe); [reflexivity|]. destruct (f_writable fe); reflexivity.
Qed.

Lemma perform_environ (c : call) (s : Process W) :
  environ (snd (perform h c s)) = environ s.
Proof.
  destruct c as [c|c]; unfold perform; cbn [snd logged set_log environ].
  - reflexivity.
  - apply rt_step_environ.
Qed.

Lemma run_environ {R : Type} (p : prog R) (s : Process W) :
  environ (snd (run h p s)) = environ s.
Proof.
  revert s. induction p as [R r|R e|R c k IH|R path mode body IHb k IHk]; intros s;
    cbn [run].
  - reflexivity.
  - reflexivity.
  - destruct (fst (perform h c s)) as [e|x]; cbn [snd].
    + apply perform_environ.
    + rewrite IH. apply perform_environ.
  - destruct (fst (perform h (Rt (OpenFile path mode)) s)) as [e|f]; cbn [snd].
    + apply perform_environ.
    + unfold with_exit.
      destruct (fst (run h (body f) _)) as [e|u]; cbn [snd];
        rewrite ?IHk, perform_environ, IHb; apply perform_environ.
Qed.

(** A program that never reads the environment variables runs the same
    under any environment under which the SDK answers the same. *)
Lemma run_set_environ {R : Type} (p : prog R) :
  env_free p ->
  forall (s : Process W) env,
    (forall c w, h c env w = h c (environ s) w) ->
    run h p (set_environ env s)
    = (fst (run h p s), set_environ env (snd (run h p s))).
Proof.
  induction p as [R r|R e|R c k IH|R path mode body IHb k IHk];
    intros Hfree s env Hh; cbn [run].
  - reflexivity.
  - reflexivity.
  - destruct Hfree as [Hc Hk].
    rewrite perform_set_environ by assumption. cbn [fst snd].
    destruct (fst (perform h c s)) as [e|x]; [reflexivity|].
    apply IH; [apply Hk|]. intros c' w'. rewrite perform_environ. apply Hh.
  - destruct Hfree as [Hb Hk].
    rewrite perform_set_environ by (assumption || discriminate). cbn [fst snd].
    destruct (fst (perform h (Rt (OpenFile path mode)) s)) as [e|f]; [reflexivity|].
    unfold with_exit.
    rewrite IHb; [|apply Hb|intros c' w'; rewrite perform_environ; apply Hh].
    cbn [fst snd].
    rewrite perform_set_environ;
      [|discriminate|intros c' w'; rewrite run_environ, perform_environ; apply Hh].
    cbn [fst snd].
    destruct (fst (run h (body f) _)) as [e|u]; [reflexivity|].
    apply IHk; [apply Hk|].
    intros c' w'. rewrite !perform_environ, run_environ, perform_environ. apply Hh.
Qed.

End Environ.

(** ** The saving cell *)

Section Save.

Context {W : Type} (h : handler W).

Lemma closed_last (fl : list file_entry) (path : string) :
  closed (length fl) (fl ++ [{| f_path := path; f_writable := true; f_closed := false |}])
  = fl ++ [{| f_path := path; f_writable := true; f_closed := true |}].
Proof.
  unfold closed. induction fl as [|x fl IH]; [reflexivity|].
  cbn [length app]. cbn [alter list_alter]. f_equal. exact IH.
Qed.

Lemma written_once (m : gmap string string) (path text : string) :
  <[path := default "" (<[path := ""]> m !! path) +:+ text]> (<[path := ""]> m)
  = <[path := text]> m.
Proof. rewrite lookup_insert_eq, insert_insert_eq. reflexivity. Qed.

Ltac open_save :=
  cbv [cell_save import with_open result_get_counts json_dump ext rt bind].

(** The cell when [get_counts] answers. *)
Lemma cell_save_returns (s : Process W) (result : Result) (counts : Counts) (w1 w2 : W) :
  h (Import "json" []) (environ s) (sdk s) = (inr tt, w1) ->
  h (GetCounts result) (environ s) w1 = (inr counts, w2) ->
  run h (cell_save result) s
  = (inr tt,
     {| sdk := w2; environ := environ s;
        fs := <[results_path result := json_dumps counts]> (fs s);
        files := files s ++ [{| f_path := results_path result; f_writable := true;
                                f_closed := true |}];
        stdout := stdout s; displayed := displayed s;
        log := log s ++
          [ Called (Ext (Import "json" [])) (inr tt);
            Called (Rt (OpenFile (results_path result) "w")) (inr (length (files s)));
            Called (Ext (GetCounts result)) (inr counts);
            Called (Rt (JsonDump counts (length (files s)))) (inr tt);
            Called (Rt (CloseFile (length (files s)))) (inr tt) ] |}).
Proof.
  destruct s as [w env m fl out d l]. cbn [environ sdk fs files stdout displayed log].
  intros H1 H2. open_save.
  rewrite (step_ext_eq h _ _ _ _ _ _ _ _ _ _ _ H1), step_with_w.
  rewrite (step_ext_eq h _ _ _ _ _ _ _ _ _ _ _ H2).
  erewrite step_json_dump by (apply list_lookup_middle; reflexivity).
  rewrite run_ret, with_exit_return, run_ret.
  rewrite written_once, closed_last, <- !app_assoc. reflexivity.
Qed.

(** The cell when [get_counts] raises: the file was opened before, so it
    is left empty. *)
Lemma cell_save_raises (s : Process W) (result : Result) (e : exn) (w1 w2 : W) :
  h (Import "json" []) (environ s) (sdk s) = (inr tt, w1) ->
  h (GetCounts result) (environ s) w1 = (inl e, w2) ->
  run h (cell_save result) s
  = (inl e,
     {| sdk := w2; environ := environ s;
        fs := <[results_path result := ""]> (fs s);
        files := files s ++ [{| f_path := results_path result; f_writable := true;
                                f_closed := true |}];
        stdout := stdout s; displayed := displayed s;
        log := log s ++
          [ Called (Ext (Import "json" [])) (inr tt);
            Called (Rt (OpenFile (results_path result) "w")) (inr (length (files s)));
            Called (Ext (GetCounts result)) (inl e);
            Called (Rt (CloseFile (length (files s)))) (inr tt) ] |}).
Proof.
  destruct s as [w env m fl out d l]. cbn [environ sdk fs files stdout displayed log].
  intros H1 H2. open_save.
  rewrite (step_ext_eq h _ _ _ _ _ _ _ _ _ _ _ H1), step_with_w.
  rewrite (step_ext_eq h _ _ _ _ _ _ _ _ _ _ _ H2).
  rewrite with_exit_raise, closed_last, <- !app_assoc. reflexivity.
Qed.

(** C1. When the saving cell runs on a result whose [get_counts] answers
    [counts], it ends normally; the file system is the one before with the
    file [results_<job_id>.json] holding exactly the JSON text of [counts],
    and no other file is changed; one file object was opened, for writing,
    and it is closed. *)
Theorem save_writes_the_counts (s : Process W) (result : Result) (counts : Counts)
    (w1 w2 : W) :
  h (Import "json" []) (environ s) (sdk s) = (inr tt, w1) ->
  h (GetCounts result) (environ s) w1 = (inr counts, w2) ->
  let r := run h (cell_save result) s in
  fst r = inr tt /\
  fs (snd r)
  = <["results_" +:+ job_id result +:+ ".json" := json_dumps counts]> (fs s) /\
  files (snd r)
  = files s ++ [{| f_path := "results_" +:+ job_id result +:+ ".json";
                   f_writable := true; f_closed := true |}].
Proof.
  intros H1 H2 r. subst r.
  rewrite (cell_save_returns s result counts w1 w2 H1 H2).
  cbn [fst snd fs files]. repeat split.
Qed.

(** C10. When the results file already exists, with any contents [old],
    the saving cell opens it with mode [w] and does not refuse: if
    [get_counts] answers, the file holds the JSON text of the counts and
    nothing of [old]; if [get_counts] raises, the file was emptied all the
    same. *)
Theorem save_replaces_an_existing_file (s : Process W) (result : Result) (old : string)
    (w1 : W) :
  fs s !! results_path result = Some old ->
  h (Import "json" []) (environ s) (sdk s) = (inr tt, w1) ->
  let r := run h (cell_save result) s in
  In (Rt (OpenFile (results_path result) "w")) (map call_of (log (snd r))) /\
  match fst (h (GetCounts result) (environ s) w1) with
  | inr counts =>
      fst r = inr tt /\ fs (snd r) !! results_path result = Some (json_dumps counts)
  | inl e =>
      fst r = inl e /\ fs (snd r) !! results_path result = Some ""
  end.
Proof.
  intros _ H1 r. subst r.
  destruct (h (GetCounts result) (environ s) w1) as [[e|counts] w2] eqn:H2; cbn [fst].
  - rewrite (cell_save_raises s result e w1 w2 H1 H2). cbn [fst snd fs log].
    rewrite map_app, in_app_iff, lookup_insert_eq. cbn. tauto.
  - rewrite (cell_save_returns s result counts w1 w2 H1 H2). cbn [fst snd fs log].
    rewrite map_app, in_app_iff, lookup_insert_eq. cbn. tauto.
Qed.

(** When [import json] raises, the saving cell ends there: no file is
    opened and the file system is as it was. *)
Theorem failed_json_import_touches_nothing (s : Process W) (result : Result)
    (e : exn) (w1 : W) :
  h (Import "json" []) (environ s) (sdk s) = (inl e, w1) ->
  let r := run h (cell_save result) s in
  fst r = inl e /\ fs (snd r) = fs s /\ files (snd r) = files s /\
  map call_of (log (snd r)) = map call_of (log s) ++ [Ext (Import "json" [])].
Proof.
  destruct s as [w env m fl out d l]. cbn [environ sdk fs files log].
  intros H1. open_save.
  rewrite (step_ext_eq h _ _ _ _ _ _ _ _ _ _ _ H1).
  cbn [fst snd fs files log]. rewrite map_app. repeat split.
Qed.

(** Running the saving cell a second time on the same result replaces the
    file: it holds the counts of the second run only, nothing is appended,
    and both file objects are closed. *)
Theorem saving_again_replaces_the_file (s : Process W) (result : Result)
    (c1 c2 : Counts) (w1 w2 w3 w4 : W) :
  h (Import "json" []) (environ s) (sdk s) = (inr tt, w1) ->
  h (GetCounts result) (environ s) w1 = (inr c1, w2) ->
  h (Import "json" []) (environ s) w2 = (inr tt, w3) ->
  h (GetCounts result) (environ s) w3 = (inr c2, w4) ->
  let once := run h (cell_save result) s in
  let twice := run h (cell_save result) (snd once) in
  fst twice = inr tt /\
  fs (snd twice) = <[results_path result := json_dumps c2]> (fs s) /\
  Forall (fun e => f_closed e = true) (drop (length (files s)) (files (snd twice))) /\
  length (files (snd twice)) = (length (files s) + 2)%nat.
Proof.
  intros H1 H2 H3 H4 once twice. subst twice once.
  rewrite (cell_save_returns s result c1 w1 w2 H1 H2).
  cbn [snd].
  erewrite cell_save_returns; [|exact H3|exact H4].
  cbn [fst snd fs files]. rewrite insert_insert_eq.
  rewrite <- app_assoc, drop_app_length, !length_app. cbn [app length].
  split; [reflexivity|]. split; [reflexivity|]. split; [|lia].
  repeat constructor.
Qed.

Lemma append_length (a b : string) :
  String.length (a +:+ b) = (String.length a + String.length b)%nat.
Proof.
  induction a as [|c a IH]; [reflexivity|].
  change (String c a +:+ b) with (String c (a +:+ b)).
  cbn [String.length]. rewrite IH. reflexivity.
Qed.

Lemma append_cancel_r (a b s : string) : a +:+ s = b +:+ s -> a = b.
Proof.
  revert b. induction a as [|c a IH]; intros [|c' b] E.
  - reflexivity.
  - apply (f_equal String.length) in E. rewrite !append_length in E.
    cbn [String.length] in E. lia.
  - apply (f_equal String.length) in E. rewrite !append_length in E.
    cbn [String.length] in E. lia.
  - change (String c (a +:+ s) = String c' (b +:+ s)) in E.
    injection E as -> E. f_equal. apply IH. exact E.
Qed.

(** The name of the results file determines the job. *)
Lemma results_path_inj (r1 r2 : Result) :
  results_path r1 = results_path r2 -> job_id r1 = job_id r2.
Proof.
  unfold results_path. intros E. apply String.app_inj in E.
  apply append_cancel_r in E. exact E.
Qed.

(** Saving the results of two jobs with different identifiers gives two
    files: the second save leaves the file of the first as it was. *)
Theorem results_of_two_jobs_are_kept_apart (s : Process W) (r1 r2 : Result)
    (c1 c2 : Counts) (w1 w2 w3 w4 : W) :
  job_id r1 <> job_id r2 ->
  h (Import "json" []) (environ s) (sdk s) = (inr tt, w1) ->
  h (GetCounts r1) (environ s) w1 = (inr c1, w2) ->
  h (Import "json" []) (environ s) w2 = (inr tt, w3) ->
  h (GetCounts r2) (environ s) w3 = (inr c2, w4) ->
  let first := run h (cell_save r1) s in
  let second := run h (cell_save r2) (snd first) in
  fst second = inr tt /\
  fs (snd second) !! results_path r1 = Some (json_dumps c1) /\
  fs (snd second) !! results_path r2 = Some (json_dumps c2) /\
  forall path, path <> results_path r1 -> path <> results_path r2 ->
               fs (snd second) !! path = fs s !! path.
Proof.
  intros Hne H1 H2 H3 H4 first second. subst second first.
  rewrite (cell_save_returns s r1 c1 w1 w2 H1 H2). cbn [snd].
  erewrite cell_save_returns; [|exact H3|exact H4].
  cbn [fst snd fs].
  assert (results_path r2 <> results_path r1) as Hp
    by (intros E; apply Hne; symmetry; apply results_path_inj; exact E).
  repeat split.
  - rewrite lookup_insert_ne by exact Hp. apply lookup_insert_eq.
  - apply lookup_insert_eq.
  - intros path N1 N2. rewrite !lookup_insert_ne by congruence. reflexivity.
Qed.

End Save.

(** ** Every run of the notebook *)

Lemma each_with_rest_split {A : Type} (P : A -> list A -> Prop) (l : list A) :
  each_with_rest P l -> forall pre x post, l = pre ++ x :: post -> P x post.
Proof.
  intros H pre. revert l H.
  induction pre as [|y pre IH]; intros l H x post ->; cbn in H.
  - tauto.
  - destruct H as [_ H]. eapply IH; eauto.
Qed.

(** The circuit cell builds the circuit of the recorded drawing, draws it
    and displays the drawing, whatever the SDK does. *)
Lemma cell_circuit_flat :
  cell_circuit
  = bind (circuit_draw Qiskit.bell_test)
      (fun drawing => bind (display (ShownDrawing drawing))
                        (fun _ => Ret Qiskit.bell_test)).
Proof. reflexivity. Qed.

(** The notebook as one sequence of calls. *)
Lemma notebook_flat :
  notebook
  = ltac:(let t := eval cbv
            [cell cell_imports cell_account cell_backends cell_backend_status
             cell_submit cell_job_status cell_result cell_counts cell_plot cell_save
             cell_past_job import Quantinuum_save_account Quantinuum_load_account
             Quantinuum_backends Quantinuum_get_backend backend_status
             backend_retrieve_job circuit_draw execute job_status job_result
             result_get_counts plot_histogram print display json_dump with_open
             ext rt bind] in
            (bind (cell StepImports cell_imports) (fun _ =>
             bind (cell StepCredentials cell_account) (fun _ =>
             bind (cell StepDiscovery cell_backends) (fun _ =>
             bind (cell StepBackendStatus cell_backend_status) (fun backend =>
             bind (cell StepCircuit
                     (bind (circuit_draw Qiskit.bell_test)
                        (fun drawing => bind (display (ShownDrawing drawing))
                                          (fun _ => Ret Qiskit.bell_test))))
                  (fun circuit =>
             bind (cell StepSubmit (cell_submit circuit backend)) (fun job =>
             bind (cell StepJobStatus (cell_job_status job)) (fun _ =>
             bind (cell StepResult (cell_result job)) (fun result =>
             bind (cell StepCounts (cell_counts result)) (fun counts =>
             bind (cell StepPlot (cell_plot counts)) (fun _ =>
             bind (cell StepSave (cell_save result)) (fun _ =>
             cell StepPastJob cell_past_job)))))))))))) in
          exact t).
Proof. reflexivity. Qed.

(** One step of a run: the call at the head of the program is answered. *)
Ltac step :=
  lazymatch goal with
  | |- context [@run ?W ?h ?R (@Call ?R' (Ext ?c) ?k) ?s] =>
      pattern (@run W h R (@Call R' (Ext c) k) s); apply step_ext; intros ? ?; cbv beta
  | |- context [@run _ _ _ (@Call _ (Rt (ExecuteCell _)) _) _] =>
      rewrite step_cell; cbv beta
  | |- context [@run _ _ _ (@Call _ (Rt (PrintOut _)) _) _] =>
      rewrite step_print; cbv beta
  | |- context [@run _ _ _ (@Call _ (Rt (DisplayOut _)) _) _] =>
      rewrite step_display; cbv beta
  | |- context [@run _ _ _ (@Call _ (Rt (JsonDump _ _)) _) _] =>
      erewrite step_json_dump by reflexivity; cbv beta
  | |- context [@run _ _ _ (@WithOpen _ _ _ _ ?k) _] =>
      let K := fresh "K" in set (K := k); rewrite step_with_w; cbv beta
  | |- context [@with_exit _ _ _ _ (inl _, _) _] =>
      rewrite with_exit_raise
  | |- context [@with_exit _ _ _ _ (inr _, _) _] =>
      rewrite with_exit_return;
      match goal with K := _ |- _ => subst K end; cbv beta
  | |- context [@run _ _ _ (@Ret _ _) _] =>
      rewrite run_ret
  end.

(** All the runs of the notebook from a fresh kernel: one goal for each
    call of the SDK that may raise, and one for the complete run. *)
Ltac exec := rewrite notebook_flat; unfold boot; repeat step.

Ltac read_log := cbn [fst snd log fs app].

Section Runs.

Context {W : Type} (h : handler W).

(** C4. In every run of the notebook, a call that raises ends the run with
    the very exception it raised, and no call of the SDK follows it: the
    exception is not caught, the call is not tried again, and nothing is
    done to recover.  The exceptions raised during a run are none when it
    completes and the one it ends with otherwise, so the notebook raises
    nothing of its own and replaces no exception by another. *)
Theorem exceptions_propagate (w : W) (env fs0 : gmap string string) :
  let r := run h notebook (boot w env fs0) in
  (forall pre e post x,
      log (snd r) = pre ++ e :: post -> raised e = Some x ->
      fst r = inl x /\ ext_calls post = []) /\
  omap raised (log (snd r)) = match fst r with inl x => [x] | inr _ => [] end.
Proof.
  intros r; subst r. split.
  - intros pre e post x E.
    refine (each_with_rest_split
              (fun e post => forall x, raised e = Some x ->
                 fst (run h notebook (boot w env fs0)) = inl x /\ ext_calls post = [])
              _ _ pre e post E x).
    clear. exec.
    all: read_log; cbn [each_with_rest raised ext_calls];
      repeat split; intros; try discriminate; congruence.
  - exec. all: reflexivity.
Qed.

(** C3, as amended.  In every run the cells run in document order, each
    at most once and none skipped, and so do the calls of the SDK: what is
    called next never depends on an answer.  A complete run goes through
    all twelve code cells: the import cell, the ten listed steps in the
    listed order, and the cell for past jobs, which looks the backend up
    again, retrieves a job by its identifier and fetches its result and
    counts once more. *)
Theorem cells_run_in_document_order (w : W) (env fs0 : gmap string string) :
  let r := run h notebook (boot w env fs0) in
  steps_of (log (snd r)) `prefix_of` all_steps /\
  map callee (ext_calls (log (snd r))) `prefix_of` sdk_plan /\
  (fst r = inr tt ->
   steps_of (log (snd r)) = all_steps /\
   map callee (ext_calls (log (snd r))) = sdk_plan) /\
  all_steps = StepImports :: listed_steps ++ [StepPastJob].
Proof.
  intros r; subst r. split; [|split; [|split; [|reflexivity]]].
  - exec. all: read_log; cbn [steps_of]; eexists; reflexivity.
  - exec. all: read_log; cbn [ext_calls map callee]; eexists; reflexivity.
  - exec. all: read_log; intros E; try discriminate E; split; reflexivity.
Qed.

(** C5, as amended.  In every run the job that [execute] returned is
    asked for its status by the next call of the SDK, and [job.status()]
    is called at most once.  Whatever status it answers, the answer is
    displayed, the next cell starts, and the next call is [job.result()]
    on that same job: the status decides nothing, and nothing is asked
    again. *)
Theorem result_follows_any_status (w : W) (env fs0 : gmap string string) :
  let l := log (snd (run h notebook (boot w env fs0))) in
  (length (status_queries (ext_calls l)) <= 1)%nat /\
  (forall pre e post j,
     l = pre ++ e :: post -> accepted e = Some j ->
     exists rest, ext_calls post = JobStatusOf j :: rest) /\
  (forall pre e post j st,
     l = pre ++ e :: post -> reported e = Some (j, st) ->
     exists e' rest,
       post = Called (Rt (DisplayOut (ShownJobStatus st))) (inr tt)
              :: Called (Rt (ExecuteCell StepResult)) (inr tt) :: e' :: rest /\
       call_of e' = Ext (JobResultOf j)).
Proof.
  intros l; subst l. split; [|split].
  - exec. all: read_log; cbn [ext_calls status_queries length]; lia.
  - intros pre e post j E.
    refine (each_with_rest_split
              (fun e post => forall j, accepted e = Some j ->
                 exists rest, ext_calls post = JobStatusOf j :: rest)
              _ _ pre e post E j).
    clear. exec.
    all: read_log; cbn [each_with_rest accepted ext_calls];
      repeat split; intros j E; try discriminate E;
      injection E as <-; eexists; reflexivity.
  - intros pre e post j st E.
    refine (each_with_rest_split
              (fun e post => forall j st, reported e = Some (j, st) ->
                 exists e' rest,
                   post = Called (Rt (DisplayOut (ShownJobStatus st))) (inr tt)
                          :: Called (Rt (ExecuteCell StepResult)) (inr tt)
                          :: e' :: rest /\
                   call_of e' = Ext (JobResultOf j))
              _ _ pre e post E j st).
    clear. exec.
    all: read_log; cbn [each_with_rest reported];
      repeat split; intros j st E; try discriminate E;
      injection E as <- <-; do 2 eexists; split; reflexivity.
Qed.

(** C6, as amended.  In every run, each call the cells make is a call of
    the SDK, a display ([print] or the value shown under a cell) or the
    start of a cell, except the file operations, all of which belong to
    the saving cell; the environment is never read.  The cells create no
    file object, or one: that of the results file, named after a result
    that [job.result()] returned.  What the calls of the SDK keep is the
    SDK's. *)
Theorem only_the_saving_cell_writes (w : W) (env fs0 : gmap string string) :
  let r := run h notebook (boot w env fs0) in
  Forall (fun se : option step * entry =>
            match effect_of (call_of (snd se)) with
            | SdkCall | Display | CellStart => True
            | FileOp => fst se = Some StepSave
            | EnvRead => False
            end)
         (by_step None (log (snd r))) /\
  (files (snd r) = [] \/
   exists result,
     In result (results_returned (log (snd r))) /\
     files (snd r) = [{| f_path := results_path result; f_writable := true;
                         f_closed := true |}]).
Proof.
  intros r; subst r. split.
  - exec.
    all: read_log; cbn [by_step call_of];
      repeat (constructor; [cbn; first [exact I | reflexivity]|]); constructor.
  - exec.
    all: cbn [fst snd files log app closed alter list_alter length];
      first [ left; reflexivity
            | right; eexists; split;
              [cbn [results_returned In]; left; reflexivity | reflexivity] ].
Qed.

(** C9, as amended.  The circuit cell builds the circuit with two qubits
    and a two-bit classical register [c], applies one Hadamard gate to
    qubit 0 and one CX gate from qubit 0 to qubit 1, and calls
    [measure_all], which adds a barrier and a second two-bit register
    [meas] and measures qubit [i] into its bit [i].  The circuit drawn and
    submitted is therefore [bell_test], with two qubits and four classical
    bits, in every run. *)
Theorem bell_circuit_is_submitted (w : W) (env fs0 : gmap string string) :
  Forall (fun c => c = Qiskit.bell_test)
         (submitted (ext_calls (log (snd (run h notebook (boot w env fs0)))))) /\
  Qiskit.QuantumCircuit 2 2 "Bell Test"
  = inr {| Qiskit.circ_name := "Bell Test"; Qiskit.num_qubits := 2;
           Qiskit.cregs := [{| Qiskit.creg_name := "c"; Qiskit.creg_size := 2 |}];
           Qiskit.data := [] |} /\
  cell_circuit
  = bind (circuit_draw Qiskit.bell_test)
      (fun drawing => bind (display (ShownDrawing drawing))
                        (fun _ => Ret Qiskit.bell_test)) /\
  Qiskit.num_qubits Qiskit.bell_test = 2%nat /\
  Qiskit.num_clbits Qiskit.bell_test = 4%nat /\
  Qiskit.data Qiskit.bell_test
  = [ Qiskit.HGate 0; Qiskit.CXGate 0 1; Qiskit.Barrier [0; 1]%nat;
      Qiskit.Measure 0 2; Qiskit.Measure 1 3 ] /\
  Qiskit.qubit_labels Qiskit.bell_test = ["q_0: "; "q_1: "] /\
  Qiskit.creg_labels Qiskit.bell_test = ["c: 2/"; "meas: 2/"].
Proof.
  split; [|repeat split].
  exec. all: read_log; cbn [ext_calls submitted]; repeat constructor.
Qed.

(** In a complete run the cells' own file operations are three: the
    results file is opened for writing, the counts are dumped into it, and
    it is closed.  The file is named after the result that the first
    [job.result()] returned and holds the JSON text of the counts that the
    saving cell's own [get_counts] returned, the second of three. *)
Theorem complete_run_leaves_the_results_file (w : W) (env fs0 : gmap string string) :
  let r := run h notebook (boot w env fs0) in
  fst r = inr tt ->
  exists result past printed saved last,
    results_returned (log (snd r)) = [result; past] /\
    counts_returned (log (snd r)) = [printed; saved; last] /\
    file_ops (log (snd r))
    = [ Rt (OpenFile (results_path result) "w"); Rt (JsonDump saved 0%nat);
        Rt (CloseFile 0%nat) ] /\
    files (snd r) = [{| f_path := results_path result; f_writable := true;
                        f_closed := true |}] /\
    fs (snd r) !! results_path result = Some (json_dumps saved).
Proof.
  intros r; subst r. exec.
  all: cbn [fst snd log fs files app length closed alter list_alter];
    intros E; try discriminate E.
  do 5 eexists. cbn [results_returned counts_returned].
  split; [reflexivity|]. split; [reflexivity|]. split; [reflexivity|].
  split; [reflexivity|].
  rewrite written_once. apply lookup_insert_eq.
Qed.

Lemma notebook_env_free : env_free notebook.
Proof.
  rewrite notebook_flat. cbn [env_free effect_of].
  repeat match goal with
         | |- _ /\ _ => split
         | |- forall _, _ => intro
         | |- _ <> _ => discriminate
         | |- True => exact I
         end.
Qed.

(** C7.  The notebook never reads an environment variable.  Take two
    values of [QUANTINUUM_API_KEY] under which the SDK answers alike: the
    two runs end alike, and their processes (the SDK's state, the files,
    the output, the log) differ in nothing but that variable. *)
Theorem api_key_is_left_to_the_sdk (w : W) (env fs0 : gmap string string)
    (v1 v2 : string) :
  (forall c w',
      h c (<[QUANTINUUM_API_KEY := v1]> env) w'
      = h c (<[QUANTINUUM_API_KEY := v2]> env) w') ->
  let r1 := run h notebook (boot w (<[QUANTINUUM_API_KEY := v1]> env) fs0) in
  let r2 := run h notebook (boot w (<[QUANTINUUM_API_KEY := v2]> env) fs0) in
  fst r2 = fst r1 /\
  snd r2 = set_environ (<[QUANTINUUM_API_KEY := v2]> env) (snd r1) /\
  Forall (fun e => effect_of (call_of e) <> EnvRead) (log (snd r1)).
Proof.
  intros Hh r1 r2.
  assert (E : r2 = (fst r1, set_environ (<[QUANTINUUM_API_KEY := v2]> env) (snd r1))).
  { subst r1 r2.
    change (boot w (<[QUANTINUUM_API_KEY := v2]> env) fs0)
      with (set_environ (<[QUANTINUUM_API_KEY := v2]> env)
              (boot w (<[QUANTINUUM_API_KEY := v1]> env) fs0)).
    apply run_set_environ; [apply notebook_env_free|].
    intros c w'. symmetry. apply Hh. }
  rewrite E. cbn [fst snd]. repeat split.
  subst r1. clear. generalize (<[QUANTINUUM_API_KEY := v1]> env). intros env'.
  exec. all: read_log; repeat (constructor; [discriminate|]); constructor.
Qed.

(** In every run, each object the notebook passes on is the one the SDK
    returned last for it, unchanged: [backend.status], [execute] and
    [retrieve_job] get the backend of the latest [get_backend];
    [job.status] and [job.result] the job of the latest [execute] or
    [retrieve_job]; [get_counts] the result of the latest [job.result];
    [plot_histogram] and [json.dump] the counts of the latest [get_counts];
    the file opened is named after that result.  The other arguments are
    the literals of the source: the device [H1-2E], 100 shots, the Bell
    circuit, and the job identifier [insert job id] of the last cell. *)
Theorem objects_are_handed_back (w : W) (env fs0 : gmap string string) :
  handed_back nothing_held (log (snd (run h notebook (boot w env fs0)))).
Proof.
  exec.
  all: read_log; cbn [handed_back hands_back learn call_of held_backend held_job
                      held_result held_counts];
    repeat split; eexists; split; reflexivity.
Qed.

(** In every run, at most one file object is created and none is left
    open at the end, also when the run ends with an exception raised
    inside the [with] block. *)
Theorem no_file_is_left_open (w : W) (env fs0 : gmap string string) :
  let r := run h notebook (boot w env fs0) in
  Forall (fun e => f_closed e = true) (files (snd r)) /\
  (length (files (snd r)) <= 1)%nat.
Proof.
  intros r; subst r. split.
  - exec. all: cbn [fst snd files app length closed alter list_alter f_closed f_path
                    f_writable]; repeat constructor.
  - exec. all: cbn [fst snd files app length closed alter list_alter]; lia.
Qed.

(** How far a run got tells what the cells did to files.  A run that ends
    before the saving cell starts has made no file operation and created
    no file object.  Once the cell for past jobs has started, the results
    file is complete, whatever fails in that cell: it was opened, written
    and closed, it is named after the first result returned and holds the
    second counts returned. *)
Theorem file_operations_by_progress (w : W) (env fs0 : gmap string string) :
  let r := run h notebook (boot w env fs0) in
  (~ In StepSave (steps_of (log (snd r))) ->
   file_ops (log (snd r)) = [] /\ files (snd r) = []) /\
  (In StepPastJob (steps_of (log (snd r))) ->
   exists result saved,
     head (results_returned (log (snd r))) = Some result /\
     counts_returned (log (snd r)) !! 1%nat = Some saved /\
     file_ops (log (snd r))
     = [ Rt (OpenFile (results_path result) "w"); Rt (JsonDump saved 0%nat);
         Rt (CloseFile 0%nat) ] /\
     files (snd r) = [{| f_path := results_path result; f_writable := true;
                         f_closed := true |}] /\
     fs (snd r) !! results_path result = Some (json_dumps saved)).
Proof.
  intros r; subst r. split.
  - exec.
    all: cbn [fst snd log files app]; cbn [steps_of]; intros N;
      first [ split; reflexivity
            | exfalso; apply N; cbn [In];
              repeat (first [left; reflexivity | right]) ].
  - exec.
    all: cbn [fst snd log fs files app length closed alter list_alter];
      cbn [steps_of In]; intros I;
      first [ exfalso;
              repeat (destruct I as [I|I]; [discriminate I|]); exact I
            | clear I; do 2 eexists; cbn [results_returned counts_returned];
              split; [reflexivity|]; split; [reflexivity|];
              split; [reflexivity|]; split; [reflexivity|];
              rewrite written_once; apply lookup_insert_eq ].
Qed.

Lemma append_assoc (a b c : string) : (a +:+ b) +:+ c = a +:+ (b +:+ c).
Proof.
  induction a as [|x a IH]; [reflexivity|].
  change (String x ((a +:+ b) +:+ c) = String x (a +:+ (b +:+ c))).
  rewrite IH. reflexivity.
Qed.

(** What a complete run prints is made of the SDK's answers: the status
    message of the backend, the identifier and the success flag of the
    first result, the counts of the first [get_counts], and the counts of
    the last one, each on a line of its own and in this order.  The counts
    written to the file, the second ones returned, are not printed. *)
Theorem complete_run_prints_the_answers (w : W) (env fs0 : gmap string string) :
  let r := run h notebook (boot w env fs0) in
  fst r = inr tt ->
  exists status result past printed saved last,
    statuses_returned (log (snd r)) = [status] /\
    results_returned (log (snd r)) = [result; past] /\
    counts_returned (log (snd r)) = [printed; saved; last] /\
    stdout (snd r)
    = print_text [VStr "H1-2E"; VStr "status :"; VStr (status_msg status)]
      +:+ print_text [VStr "Job ID:"; VStr (job_id result)]
      +:+ print_text [VStr "Job success:"; VBool (success result)]
      +:+ print_text [VStr "Total count for 00 and 11 are:"; VCounts printed]
      +:+ print_text [VCounts last].
Proof.
  intros r; subst r. exec.
  all: cbn [fst snd log stdout app]; intros E; try discriminate E.
  do 6 eexists. cbn [statuses_returned results_returned counts_returned].
  repeat split. rewrite !append_assoc. reflexivity.
Qed.

End Runs.

(** ** The recorded run, and runs that go wrong *)

(** The exception of the second [get_counts], raised inside the [with]
    block, ends the run; the file was closed on the way out. *)
Lemma exceptions_propagate_witness :
  let r := run Recorded.sdk_counts_once notebook (boot 0%nat ∅ ∅) in
  fst r = inl Recorded.no_counts /\ ext_calls (drop 37 (log (snd r))) = [].
Proof.
  intros r.
  destruct (exceptions_propagate Recorded.sdk_counts_once 0%nat ∅ ∅) as [H _].
  apply (H (take 36 (log (snd r)))
           (Called (Ext (GetCounts Recorded.result)) (inl Recorded.no_counts))).
  - vm_compute. reflexivity.
  - reflexivity.
Defined.

Lemma save_writes_the_counts_witness :
  let r := run Recorded.sdk_done (cell_save Recorded.result) Recorded.fresh in
  fst r = inr tt /\
  fs (snd r)
  = <["results_" +:+ job_id Recorded.result +:+ ".json"
      := json_dumps Recorded.counts]> (fs Recorded.fresh) /\
  files (snd r)
  = files Recorded.fresh
    ++ [{| f_path := "results_" +:+ job_id Recorded.result +:+ ".json";
           f_writable := true; f_closed := true |}].
Proof.
  apply (save_writes_the_counts Recorded.sdk_done Recorded.fresh Recorded.result
           Recorded.counts tt tt); reflexivity.
Defined.

(** A results file left by an earlier run is replaced. *)
Lemma save_replaces_an_existing_file_witness :
  let r := run Recorded.sdk_done (cell_save Recorded.result)
             (boot tt ∅ Recorded.stale) in
  In (Rt (OpenFile (results_path Recorded.result) "w")) (map call_of (log (snd r))) /\
  fst r = inr tt /\
  fs (snd r) !! results_path Recorded.result = Some (json_dumps Recorded.counts).
Proof.
  apply (save_replaces_an_existing_file Recorded.sdk_done (boot tt ∅ Recorded.stale)
           Recorded.result "stale" tt); reflexivity.
Defined.

(** C2, on the recorded run: the file holds the counts as the SDK gave
    them, and two of the three keys are one character long. *)
Lemma recorded_keys_are_not_two_bits :
  fs (snd (run Recorded.sdk_done notebook Recorded.fresh))
    !! "results_f151861654594c8fb718541dede4476d.json"
  = Some (lit "{`11`: 52, `0`: 47, `1`: 1}") /\
  map (fun kv : string * Z => String.length (fst kv)) Recorded.counts
  = [2; 1; 1]%nat.
Proof. split; vm_compute; reflexivity. Qed.

(** C3, as stated: the recorded run does not consist of the ten listed
    steps; the import cell comes before them and the cell for past jobs
    after them. *)
Lemma recorded_steps_are_not_the_listed_ten :
  steps_of (log (snd (run Recorded.sdk_done notebook Recorded.fresh))) <> listed_steps.
Proof. vm_compute. discriminate. Qed.

(** C5, as stated: with a job that is still queued when its status is
    asked, [job.result()] is called without any status having reported
    the job done. *)
Lemma result_is_fetched_from_a_queued_job :
  result_awaits_done false (log (snd (run Recorded.sdk_queued notebook Recorded.fresh)))
  = false.
Proof. vm_compute. reflexivity. Qed.

Lemma result_follows_any_status_witness :
  let l := log (snd (run Recorded.sdk_queued notebook Recorded.fresh)) in
  (exists rest, ext_calls (drop 20 l) = JobStatusOf Recorded.job :: rest) /\
  (exists e' rest,
     drop 22 l
     = Called (Rt (DisplayOut (ShownJobStatus QUEUED))) (inr tt)
       :: Called (Rt (ExecuteCell StepResult)) (inr tt) :: e' :: rest /\
     call_of e' = Ext (JobResultOf Recorded.job)).
Proof.
  intros l.
  destruct (result_follows_any_status Recorded.sdk_queued tt ∅ ∅) as [_ [H1 H2]].
  split.
  - apply (H1 (take 19 l)
              (Called (Ext (Execute Qiskit.bell_test Recorded.backend 100))
                 (inr Recorded.job))
              (drop 20 l) Recorded.job).
    + vm_compute. reflexivity.
    + reflexivity.
  - apply (H2 (take 21 l) (Called (Ext (JobStatusOf Recorded.job)) (inr QUEUED))
              (drop 22 l) Recorded.job QUEUED).
    + vm_compute. reflexivity.
    + reflexivity.
Defined.

(** C6, as stated: with an SDK that stores the account it is given, the
    credentials cell leaves the user name in the SDK's store, which was
    empty before the run: something is kept by a step that is not the
    saving step. *)
Lemma credentials_are_stored_by_another_step :
  let s := boot [] ∅ ∅ in
  let r := run Recorded.sdk_storing notebook s in
  sdk s = [] /\ sdk (snd r) = ["first.last@company.com"] /\
  In (Some StepCredentials,
      Called (Ext (SaveAccount "first.last@company.com")) (inr tt))
     (by_step None (log (snd r))).
Proof.
  split; [reflexivity|]. split; [reflexivity|].
  vm_compute. do 6 right. left. reflexivity.
Qed.

(** C9, as stated: the circuit submitted in the recorded run does not have
    two classical bits. *)
Lemma submitted_circuit_has_four_clbits :
  ~ Forall (fun c => Qiskit.num_clbits c = 2%nat)
      (submitted (ext_calls (log (snd (run Recorded.sdk_done notebook Recorded.fresh))))).
Proof.
  intros H. apply Forall_inv in H. vm_compute in H. discriminate H.
Qed.

Lemma api_key_is_left_to_the_sdk_witness :
  let r1 := run Recorded.sdk_done notebook
              (boot tt (<[QUANTINUUM_API_KEY := "one"]> ∅) ∅) in
  let r2 := run Recorded.sdk_done notebook
              (boot tt (<[QUANTINUUM_API_KEY := "other"]> ∅) ∅) in
  fst r2 = fst r1 /\
  snd r2 = set_environ (<[QUANTINUUM_API_KEY := "other"]> ∅) (snd r1) /\
  Forall (fun e => effect_of (call_of e) <> EnvRead) (log (snd r1)).
Proof.
  apply (api_key_is_left_to_the_sdk Recorded.sdk_done tt ∅ ∅ "one" "other").
  intros c w'. reflexivity.
Defined.

Lemma complete_run_leaves_the_results_file_witness :
  let r := run Recorded.sdk_done notebook Recorded.fresh in
  exists result past printed saved last,
    results_returned (log (snd r)) = [result; past] /\
    counts_returned (log (snd r)) = [printed; saved; last] /\
    file_ops (log (snd r))
    = [ Rt (OpenFile (results_path result) "w"); Rt (JsonDump saved 0%nat);
        Rt (CloseFile 0%nat) ] /\
    files (snd r) = [{| f_path := results_path result; f_writable := true;
                        f_closed := true |}] /\
    fs (snd r) !! results_path result = Some (json_dumps saved).
Proof.
  apply (complete_run_leaves_the_results_file Recorded.sdk_done tt ∅ ∅).
  reflexivity.
Defined.

Lemma complete_run_prints_the_answers_witness :
  exists status result past printed saved last,
    statuses_returned (log (snd (run Recorded.sdk_done notebook Recorded.fresh)))
    = [status] /\
    results_returned (log (snd (run Recorded.sdk_done notebook Recorded.fresh)))
    = [result; past] /\
    counts_returned (log (snd (run Recorded.sdk_done notebook Recorded.fresh)))
    = [printed; saved; last] /\
    stdout (snd (run Recorded.sdk_done notebook Recorded.fresh))
    = print_text [VStr "H1-2E"; VStr "status :"; VStr (status_msg status)]
      +:+ print_text [VStr "Job ID:"; VStr (job_id result)]
      +:+ print_text [VStr "Job success:"; VBool (success result)]
      +:+ print_text [VStr "Total count for 00 and 11 are:"; VCounts printed]
      +:+ print_text [VCounts last].
Proof.
  apply (complete_run_prints_the_answers Recorded.sdk_done tt ∅ ∅). reflexivity.
Defined.

(** An SDK whose [import json] raises, one that returns other counts each
    time, and the results of two jobs, for the runs of the saving cell. *)
Lemma failed_json_import_touches_nothing_witness :
  let s := boot tt ∅ Recorded.stale in
  let r := run Recorded.sdk_no_json (cell_save Recorded.result) s in
  fst r = inl Recorded.no_json /\ fs (snd r) = fs s /\ files (snd r) = files s /\
  map call_of (log (snd r)) = map call_of (log s) ++ [Ext (Import "json" [])].
Proof.
  apply (failed_json_import_touches_nothing Recorded.sdk_no_json
           (boot tt ∅ Recorded.stale) Recorded.result Recorded.no_json tt).
  reflexivity.
Defined.

Lemma saving_again_replaces_the_file_witness :
  let s := boot 0%nat ∅ Recorded.stale in
  let once := run Recorded.sdk_counting (cell_save Recorded.result) s in
  let twice := run Recorded.sdk_counting (cell_save Recorded.result) (snd once) in
  fst twice = inr tt /\
  fs (snd twice)
  = <[results_path Recorded.result := json_dumps [("11", 1)]]> (fs s) /\
  Forall (fun e => f_closed e = true) (drop (length (files s)) (files (snd twice))) /\
  length (files (snd twice)) = (length (files s) + 2)%nat.
Proof.
  apply (saving_again_replaces_the_file Recorded.sdk_counting
           (boot 0%nat ∅ Recorded.stale) Recorded.result
           [("11", 0)] [("11", 1)] 0%nat 1%nat 1%nat 2%nat); reflexivity.
Defined.

Lemma results_of_two_jobs_are_kept_apart_witness :
  let s := boot 0%nat ∅ ∅ in
  let first := run Recorded.sdk_counting (cell_save Recorded.result) s in
  let second := run Recorded.sdk_counting (cell_save Recorded.other_result) (snd first) in
  fst second = inr tt /\
  fs (snd second) !! results_path Recorded.result = Some (json_dumps [("11", 0)]) /\
  fs (snd second) !! results_path Recorded.other_result
  = Some (json_dumps [("11", 1)]) /\
  forall path, path <> results_path Recorded.result ->
               path <> results_path Recorded.other_result ->
               fs (snd second) !! path = fs s !! path.
Proof.
  apply (results_of_two_jobs_are_kept_apart Recorded.sdk_counting
           (boot 0%nat ∅ ∅) Recorded.result Recorded.other_result
           [("11", 0)] [("11", 1)] 0%nat 1%nat 1%nat 2%nat);
    [discriminate | reflexivity..].
Defined.

(** The reading of the polling claim is not empty: the recorded run, whose
    job was done when asked, satisfies it. *)
Example recorded_run_awaits_done :
  result_awaits_done false (log (snd (run Recorded.sdk_done notebook Recorded.fresh)))
  = true.
Proof. vm_compute. reflexivity. Qed.

(** The model against the outputs stored in the notebook (source lines 92,
    230-231 and 262): replaying the recorded answers prints the recorded
    text, followed by the line of the cell for past jobs. *)
Theorem recorded_stdout :
  stdout (snd (run Recorded.sdk_done notebook Recorded.fresh))
  = print_text [VStr "H1-2E status : online"]
    +:+ print_text [VStr "Job ID: f151861654594c8fb718541dede4476d"]
    +:+ print_text [VStr "Job success: True"]
    +:+ print_text [VStr "Total count for 00 and 11 are: {'11': 52, '0': 47, '1': 1}"]
    +:+ print_text [VStr "{'11': 52, '0': 47, '1': 1}"].
Proof. vm_compute. reflexivity. Qed.

Example json_dumps_recorded :
  json_dumps [("11", 52); ("0", 47); ("1", 1)] = lit "{`11`: 52, `0`: 47, `1`: 1}".
Proof. vm_compute. reflexivity. Qed.

(** ** Cells run one by one *)

Import Session.

Section SessionSteps.

Context {W : Type} (h : handler W).

Variables (w : W) (env m : gmap string string) (fl : list file_entry)
  (out : string) (d : list shown) (l : list entry).

Local Notation "'here'" :=
  {| sdk := w; environ := env; fs := m; files := fl; stdout := out;
     displayed := d; log := l |}.

Lemma run_cells_cons (c : cell) (rest : list cell) ns (s : Process W) :
  run_cells h (c :: rest) ns s = and_then (run_cell h c ns s) (run_cells h rest).
Proof. reflexivity. Qed.

Lemma run_cell_here (st : step) (body : list stmt) ns :
  run_cell h {| label := st; stmts := body |} ns here
  = run_stmts h body ns
      {| sdk := w; environ := env; fs := m; files := fl; stdout := out;
         displayed := d; log := l ++ [Called (Rt (ExecuteCell st)) (inr tt)] |}.
Proof. reflexivity. Qed.

Lemma run_stmts_cons (st : stmt) (rest : list stmt) ns (s : Process W) :
  run_stmts h (st :: rest) ns s = and_then (run_stmt h st ns s) (run_stmts h rest).
Proof. reflexivity. Qed.

Lemma run_stmt_do (body : Namespace -> prog Namespace) ns (s : Process W) :
  run_stmt h (Do body) ns s
  = settle ns (run h (body ns) s) (fun ns' s' => (inr tt, ns', s')).
Proof. reflexivity. Qed.

(** The [with] statement at its opening, once the path is known. *)
Lemma run_stmt_with_w (path : Namespace -> prog string) (p : string)
    (body : Namespace -> prog unit) ns :
  path ns = Ret p ->
  run_stmt h (With path "w" body) ns here
  = (fst (with_exit h (length fl)
            (run h (body (set_f (length fl) ns))
               {| sdk := w; environ := env; fs := <[p := ""]> m;
                  files := fl ++ [{| f_path := p; f_writable := true;
                                     f_closed := false |}];
                  stdout := out; displayed := d;
                  log := l ++ [Called (Rt (OpenFile p "w")) (inr (length fl))] |})
            (fun s3 => (inr tt, s3))),
     set_f (length fl) ns,
     snd (with_exit h (length fl)
            (run h (body (set_f (length fl) ns))
               {| sdk := w; environ := env; fs := <[p := ""]> m;
                  files := fl ++ [{| f_path := p; f_writable := true;
                                     f_closed := false |}];
                  stdout := out; displayed := d;
                  log := l ++ [Called (Rt (OpenFile p "w")) (inr (length fl))] |})
            (fun s3 => (inr tt, s3)))).
Proof. intros E. cbn [run_stmt]. rewrite E. reflexivity. Qed.

Lemma run_stmt_with_raise (path : Namespace -> prog string) (e : exn) (mode : string)
    (body : Namespace -> prog unit) ns (s : Process W) :
  path ns = Raise e ->
  run_stmt h (With path mode body) ns s = (inl e, ns, s).
Proof. intros E. cbn [run_stmt]. rewrite E. reflexivity. Qed.

Lemma settle_inl {A : Type} ns (e : exn) (s : Process W)
    (next : A -> Process W -> ended W) :
  settle ns (inl e, s) next = (inl e, ns, s).
Proof. reflexivity. Qed.

Lemma settle_inr {A : Type} ns (a : A) (s : Process W)
    (next : A -> Process W -> ended W) :
  settle ns (inr a, s) next = next a s.
Proof. reflexivity. Qed.

Lemma and_then_inl ns (e : exn) (s : Process W)
    (next : Namespace -> Process W -> ended W) :
  and_then (inl e, ns, s) next = (inl e, ns, s).
Proof. reflexivity. Qed.

Lemma and_then_inr ns (u : unit) (s : Process W)
    (next : Namespace -> Process W -> ended W) :
  and_then (inr u, ns, s) next = next ns s.
Proof. reflexivity. Qed.

Lemma run_raise {R : Type} (e : exn) (s : Process W) :
  run h (Raise e : prog R) s = (inl e, s).
Proof. reflexivity. Qed.

(** The same call of the SDK at the head of two programs run from the
    same process: both see the same answer. *)
Lemma step_ext2 {R1 R2 : Type}
    (P : (exn + R1) * Process W -> (exn + R2) * Process W -> Prop)
    (c : ext_call) (k1 : ext_resp c -> prog R1) (k2 : ext_resp c -> prog R2) :
  (forall e w',
     P (inl e, {| sdk := w'; environ := env; fs := m; files := fl; stdout := out;
                  displayed := d; log := l ++ [Called (Ext c) (inl e)] |})
       (inl e, {| sdk := w'; environ := env; fs := m; files := fl; stdout := out;
                  displayed := d; log := l ++ [Called (Ext c) (inl e)] |})) ->
  (forall x w',
     P (run h (k1 x)
          {| sdk := w'; environ := env; fs := m; files := fl; stdout := out;
             displayed := d; log := l ++ [Called (Ext c) (inr x)] |})
       (run h (k2 x)
          {| sdk := w'; environ := env; fs := m; files := fl; stdout := out;
             displayed := d; log := l ++ [Called (Ext c) (inr x)] |})) ->
  P (run h (Call (Ext c) k1) here) (run h (Call (Ext c) k2) here).
Proof.
  intros He Hx. destruct (h c env w) as [r w'] eqn:E.
  rewrite (step_ext_eq h _ _ _ _ _ _ _ c k1 r w' E).
  rewrite (step_ext_eq h _ _ _ _ _ _ _ c k2 r w' E).
  destruct r; auto.
Qed.

End SessionSteps.

Lemma run_cells_nil {W : Type} (h : handler W) ns (s : Process W) :
  run_cells h [] ns s = (inr tt, ns, s).
Proof. reflexivity. Qed.

Lemma run_stmts_nil {W : Type} (h : handler W) ns (s : Process W) :
  run_stmts h [] ns s = (inr tt, ns, s).
Proof. reflexivity. Qed.

(** A name that an import has bound is found. *)
Lemma name_bound (n : string) (ns : Namespace) :
  In n (imported ns) -> name n ns = Ret tt.
Proof.
  intros H. unfold name.
  replace (existsb (String.eqb n) (imported ns)) with true; [reflexivity|].
  symmetry. apply existsb_exists. exists n. split; [exact H|apply String.eqb_refl].
Qed.

Ltac bound_names :=
  repeat match goal with
  | H : In ?n _ |- context [name ?n ?ns] => rewrite (name_bound n ns H)
  end.

(** A call of the SDK: it raises, or it answers. *)
Ltac sdk_step :=
  lazymatch goal with
  | |- context [@run ?W ?h ?R (@Call ?R' (Ext ?c) ?k) ?s] =>
      pattern (@run W h R (@Call R' (Ext c) k) s); apply step_ext;
      intros ? ?; cbv beta
  end.

(** The statement at the head of a run, with the names it reads looked
    up. *)
Ltac reduce_body :=
  match goal with
  | |- context [settle _ (@run _ _ _ ?p _) _] =>
      let p' := eval cbv - [String.append results_path status_msg job_id success] in p in
      change p with p'
  end.

Ltac reduce_with_body :=
  match goal with
  | |- context [fst (with_exit _ _ (@run _ _ _ ?p _) _)] =>
      let p' := eval cbv - [String.append results_path status_msg job_id success] in p in
      change p with p'
  end.

Ltac open_cells :=
  cbv [cells c_imports c_account c_backends c_backend_status c_circuit c_submit
       c_job_status c_result c_counts c_plot c_save c_past_job empty].

(** One step of a kernel that runs cells: the next cell or statement is
    taken up, or a call of the runtime is answered. *)
Ltac sstep :=
  lazymatch goal with
  | |- context [settle _ (inl _, _) _] => rewrite settle_inl
  | |- context [settle _ (inr _, _) _] => rewrite settle_inr; cbv beta
  | |- context [and_then (inl _, _, _) _] => rewrite and_then_inl
  | |- context [and_then (inr _, _, _) _] => rewrite and_then_inr
  | |- context [@run _ _ _ (@Ret _ _) _] => rewrite run_ret
  | |- context [@run _ _ _ (@Raise _ _) _] => rewrite run_raise
  | |- context [@run _ _ _ (@Call _ (Rt (ExecuteCell _)) _) _] =>
      rewrite step_cell; cbv beta
  | |- context [@run _ _ _ (@Call _ (Rt (PrintOut _)) _) _] =>
      rewrite step_print; cbv beta
  | |- context [@run _ _ _ (@Call _ (Rt (DisplayOut _)) _) _] =>
      rewrite step_display; cbv beta
  | |- context [@run _ _ _ (@Call _ (Rt (JsonDump _ _)) _) _] =>
      erewrite step_json_dump
        by first [reflexivity | apply list_lookup_middle; reflexivity];
      cbv beta
  | |- context [@with_exit _ _ _ _ (inl _, _) _] =>
      rewrite with_exit_raise; cbn [fst snd]
  | |- context [@with_exit _ _ _ _ (inr _, _) _] =>
      rewrite with_exit_return; cbv beta; cbn [fst snd]
  | |- context [run_stmt _ (Do _) _ _] =>
      rewrite run_stmt_do; bound_names; reduce_body
  | |- context [run_stmt _ (With _ _ _) _ _] =>
      first [ erewrite run_stmt_with_w by reflexivity; cbn [length];
              bound_names; reduce_with_body
            | erewrite run_stmt_with_raise by reflexivity ]
  | |- context [run_stmts _ (_ :: _) _ _] => rewrite run_stmts_cons
  | |- context [run_stmts _ [] _ _] => rewrite run_stmts_nil
  | |- context [run_cell _ _ _ _] => rewrite run_cell_here
  | |- context [run_cells _ (_ :: _) _ _] => rewrite run_cells_cons
  | |- context [run_cells _ [] _ _] => rewrite run_cells_nil
  end.

(** The same call of the SDK on both sides. *)
Ltac costep :=
  match goal with
  | |- context [@run ?W ?h ?R1 (@Call ?R1' (Ext ?c) ?k1) ?s] =>
      match goal with
      | |- context [@run W h ?R2 (@Call ?R2' (Ext c) ?k2) s] =>
          tryif constr_eq k1 k2 then fail else
            (pattern (@run W h R1 (@Call R1' (Ext c) k1) s),
                     (@run W h R2 (@Call R2' (Ext c) k2) s);
             apply step_ext2; intros ? ?; cbv beta)
      end
  end.

Ltac open_with :=
  lazymatch goal with
  | |- context [@run _ _ _ (@WithOpen _ _ _ _ ?k) _] =>
      let K := fresh "K" in
      set (K := k); rewrite step_with_w; cbv beta; cbn [length]
  end.

Ltac close_with :=
  match goal with K := _ |- _ => subst K; cbv beta end.

Section Sessions.

Context {W : Type} (h : handler W).

(** Running the cells in document order in a fresh kernel is the run of
    [notebook]: the same outcome and the same process, for every SDK. *)
Theorem run_all_is_the_notebook (w : W) (env fs0 : gmap string string) :
  let a := run_cells h cells empty (boot w env fs0) in
  let r := run h notebook (boot w env fs0) in
  fst (fst a) = fst r /\ snd a = snd r.
Proof.
  intros a r; subst a r.
  rewrite notebook_flat. unfold Qiskit.bell_test, boot. open_cells.
  repeat first [sstep | open_with | costep | close_with].
  all: split; reflexivity.
Qed.

(** In a fresh kernel no cell but the first completes: it stops at the
    first name that an earlier cell would have bound, or at [import json]
    if that raises.  Nothing of the SDK is called but an import, and no
    file is opened or written. *)
Theorem later_cells_need_earlier_ones (c : cell) (w : W)
    (env fs0 : gmap string string) :
  In c cells -> label c <> StepImports ->
  let a := run_cell h c empty (boot w env fs0) in
  match fst (fst a) with
  | inr _ => False
  | inl e =>
      (exists n, e = NameError n) \/
      In (Called (Ext (Import "json" [])) (inl e)) (log (snd a))
  end /\
  fs (snd a) = fs0 /\ files (snd a) = [] /\
  Forall (fun c => callee c = "import") (ext_calls (log (snd a))).
Proof.
  intros Hin Hl a; subst a. unfold boot.
  unfold cells in Hin. cbn [In] in Hin.
  repeat (destruct Hin as [<- | Hin]); [ | .. | destruct Hin ].
  1: exfalso; apply Hl; reflexivity.
  all: open_cells; repeat first [sstep | sdk_step].
  all: cbn [fst snd fs files log].
  all: split; [|split; [reflexivity|split; [reflexivity|]]].
  all: try (cbn; repeat constructor; fail).
  all: first [ left; eexists; reflexivity | right; cbn; tauto ].
Qed.

(** The saving cell reads one variable, [result]: with [result] bound it
    runs as [cell_save] of that result, whatever else is bound, and leaves
    [json] and [f] bound. *)
Theorem saving_cell_reads_only_result (ns : Namespace) (s : Process W)
    (r : Result) :
  v_result ns = Some r ->
  let a := run_cell h c_save ns s in
  let b := run h (Notebook.cell StepSave (cell_save r)) s in
  fst (fst a) = fst b /\ snd a = snd b /\
  (fst b = inr tt ->
   snd (fst a) = set_f (length (files s)) (bind_imports ["json"] ns)).
Proof.
  intros Hr a b; subst a b.
  destruct s as [w env m fl out d l].
  destruct ns as [imp dev bk st nq ci sh jb rs cn ji vf].
  cbn [v_result] in Hr. subst rs.
  assert (Hj : In "json" (imp ++ ["json"])) by (apply in_or_app; right; left; reflexivity).
  cbv [Notebook.cell cell_save import with_open result_get_counts json_dump ext rt bind].
  open_cells.
  repeat first [sstep | open_with | costep | close_with].
  all: cbn [fst snd files].
  all: split; [reflexivity|split; [reflexivity|]].
  all: intros E; first [discriminate E | reflexivity].
Qed.

(** With no [result] bound the saving cell raises [NameError] once
    [import json] has answered: no file is opened and the file system is
    as it was. *)
Theorem saving_cell_without_result (ns : Namespace) (s : Process W) :
  v_result ns = None ->
  let a := run_cell h c_save ns s in
  fs (snd a) = fs s /\ files (snd a) = files s /\
  match fst (h (Import "json" []) (environ s) (sdk s)) with
  | inl e => fst (fst a) = inl e /\ snd (fst a) = ns
  | inr _ =>
      fst (fst a) = inl (NameError "result") /\
      snd (fst a) = bind_imports ["json"] ns
  end.
Proof.
  intros Hr a; subst a.
  destruct s as [w env m fl out d l].
  destruct ns as [imp dev bk st nq ci sh jb rs cn ji vf].
  cbn [v_result] in Hr. subst rs.
  cbn [environ sdk fs files]. open_cells.
  do 3 sstep.
  destruct (h (Import "json" []) env w) as [x w'] eqn:E.
  rewrite (step_ext_eq h _ _ _ _ _ _ _ _ _ _ _ E).
  destruct x as [e|[]]; cbn [fst]; repeat sstep; cbn [fst snd fs files];
    repeat split.
Qed.

(** The last cell reads nothing that an earlier cell assigned, only the
    imported [Quantinuum]: whatever is bound, it runs as [cell_past_job],
    and when it completes [device], [job_id], [backend], [job], [result]
    and [counts] hold what it retrieved. *)
Theorem past_job_cell_reads_only_the_import (ns : Namespace) (s : Process W) :
  In "Quantinuum" (imported ns) ->
  let a := run_cell h c_past_job ns s in
  let b := run h (Notebook.cell StepPastJob cell_past_job) s in
  fst (fst a) = fst b /\ snd a = snd b /\
  (fst b = inr tt ->
   exists backend job result counts,
     snd (fst a)
     = set_counts counts (set_result result (set_job job (set_backend backend
         (set_job_id "insert job id" (set_device "H1-2E" ns))))) /\
     log (snd b)
     = log s ++
       [ Called (Rt (ExecuteCell StepPastJob)) (inr tt);
         Called (Ext (GetBackend "H1-2E")) (inr backend);
         Called (Ext (RetrieveJob backend "insert job id")) (inr job);
         Called (Ext (JobResultOf job)) (inr result);
         Called (Ext (GetCounts result)) (inr counts);
         Called (Rt (PrintOut [VCounts counts])) (inr tt) ]).
Proof.
  intros Hq a b; subst a b.
  destruct s as [w env m fl out d l].
  destruct ns as [imp dev bk st nq ci sh jb rs cn ji vf].
  cbn [imported] in Hq.
  cbv [Notebook.cell cell_past_job Quantinuum_get_backend backend_retrieve_job job_result
       result_get_counts print ext rt bind].
  open_cells.
  repeat first [sstep | costep].
  all: cbn [fst snd log].
  all: split; [reflexivity|split; [reflexivity|]].
  all: intros E; try discriminate E.
  do 4 eexists. split; [reflexivity|].
  rewrite <- !app_assoc. reflexivity.
Qed.

(** The saving cell run after the last cell saves the retrieved job, not
    a job submitted before: the file is named after the result that the
    last cell fetched, and holds the counts that [get_counts] answers for
    that result when the saving cell asks. *)
Theorem saving_after_the_last_cell (ns : Namespace) (s : Process W) :
  In "Quantinuum" (imported ns) ->
  let a := run_cells h [c_past_job; c_save] ns s in
  fst (fst a) = inr tt ->
  exists backend job result counts saved,
    log (snd a)
    = log s ++
      [ Called (Rt (ExecuteCell StepPastJob)) (inr tt);
        Called (Ext (GetBackend "H1-2E")) (inr backend);
        Called (Ext (RetrieveJob backend "insert job id")) (inr job);
        Called (Ext (JobResultOf job)) (inr result);
        Called (Ext (GetCounts result)) (inr counts);
        Called (Rt (PrintOut [VCounts counts])) (inr tt);
        Called (Rt (ExecuteCell StepSave)) (inr tt);
        Called (Ext (Import "json" [])) (inr tt);
        Called (Rt (OpenFile (results_path result) "w")) (inr (length (files s)));
        Called (Ext (GetCounts result)) (inr saved);
        Called (Rt (JsonDump saved (length (files s)))) (inr tt);
        Called (Rt (CloseFile (length (files s)))) (inr tt) ] /\
    fs (snd a) = <[results_path result := json_dumps saved]> (fs s).
Proof.
  intros Hq a; subst a.
  destruct s as [w env m fl out d l].
  destruct ns as [imp dev bk st nq ci sh jb rs cn ji vf].
  cbn [imported] in Hq.
  assert (Hj : In "json" (imp ++ ["json"]))
    by (apply in_or_app; right; left; reflexivity).
  open_cells.
  repeat first [sstep | sdk_step].
  all: cbn [fst snd log fs files].
  all: intros E; try discriminate E.
  do 5 eexists. split.
  - rewrite <- !app_assoc. cbn [app].
    match goal with x : ext_resp (Import "json" []) |- _ => destruct x end.
    reflexivity.
  - apply written_once.
Qed.

End Sessions.

(** ** Cells run out of order

    A kernel that has run nothing, one that holds a result and no import,
    and one that has only imported [Quantinuum]. *)

Lemma later_cells_need_earlier_ones_witness :
  let a := run_cell Recorded.sdk_done c_save empty Recorded.fresh in
  match fst (fst a) with
  | inr _ => False
  | inl e =>
      (exists n, e = NameError n) \/
      In (Called (Ext (Import "json" [])) (inl e)) (log (snd a))
  end /\
  fs (snd a) = ∅ /\ files (snd a) = [] /\
  Forall (fun c => callee c = "import") (ext_calls (log (snd a))).
Proof.
  apply (later_cells_need_earlier_ones Recorded.sdk_done c_save tt ∅ ∅).
  - simpl. do 10 right. left. reflexivity.
  - simpl. discriminate.
Defined.

Lemma saving_cell_reads_only_result_witness :
  let ns := set_result Recorded.result empty in
  let a := run_cell Recorded.sdk_done c_save ns Recorded.fresh in
  let b := run Recorded.sdk_done (Notebook.cell StepSave (cell_save Recorded.result))
             Recorded.fresh in
  fst (fst a) = fst b /\ snd a = snd b /\
  (fst b = inr tt ->
   snd (fst a) = set_f (length (files Recorded.fresh)) (bind_imports ["json"] ns)).
Proof.
  apply (saving_cell_reads_only_result Recorded.sdk_done
           (set_result Recorded.result empty) Recorded.fresh Recorded.result).
  reflexivity.
Defined.

Lemma saving_cell_without_result_witness :
  let s := boot tt ∅ Recorded.stale in
  let a := run_cell Recorded.sdk_done c_save empty s in
  fs (snd a) = fs s /\ files (snd a) = files s /\
  match fst (Recorded.sdk_done (Import "json" []) (environ s) (sdk s)) with
  | inl e => fst (fst a) = inl e /\ snd (fst a) = empty
  | inr _ =>
      fst (fst a) = inl (NameError "result") /\
      snd (fst a) = bind_imports ["json"] empty
  end.
Proof.
  apply (saving_cell_without_result Recorded.sdk_done empty (boot tt ∅ Recorded.stale)).
  reflexivity.
Defined.

Lemma past_job_cell_reads_only_the_import_witness :
  let ns := bind_imports ["Quantinuum"] empty in
  let s := Recorded.fresh in
  let a := run_cell Recorded.sdk_done c_past_job ns s in
  let b := run Recorded.sdk_done (Notebook.cell StepPastJob cell_past_job) s in
  fst (fst a) = fst b /\ snd a = snd b /\
  (fst b = inr tt ->
   exists backend job result counts,
     snd (fst a)
     = set_counts counts (set_result result (set_job job (set_backend backend
         (set_job_id "insert job id" (set_device "H1-2E" ns))))) /\
     log (snd b)
     = log s ++
       [ Called (Rt (ExecuteCell StepPastJob)) (inr tt);
         Called (Ext (GetBackend "H1-2E")) (inr backend);
         Called (Ext (RetrieveJob backend "insert job id")) (inr job);
         Called (Ext (JobResultOf job)) (inr result);
         Called (Ext (GetCounts result)) (inr counts);
         Called (Rt (PrintOut [VCounts counts])) (inr tt) ]).
Proof.
  apply (past_job_cell_reads_only_the_import Recorded.sdk_done
           (bind_imports ["Quantinuum"] empty) Recorded.fresh).
  simpl. left. reflexivity.
Defined.

Lemma saving_after_the_last_cell_witness :
  let ns := bind_imports ["Quantinuum"] empty in
  let s := boot 0%nat ∅ Recorded.stale in
  let a := run_cells Recorded.sdk_counting [c_past_job; c_save] ns s in
  exists backend job result counts saved,
    log (snd a)
    = log s ++
      [ Called (Rt (ExecuteCell StepPastJob)) (inr tt);
        Called (Ext (GetBackend "H1-2E")) (inr backend);
        Called (Ext (RetrieveJob backend "insert job id")) (inr job);
        Called (Ext (JobResultOf job)) (inr result);
        Called (Ext (GetCounts result)) (inr counts);
        Called (Rt (PrintOut [VCounts counts])) (inr tt);
        Called (Rt (ExecuteCell StepSave)) (inr tt);
        Called (Ext (Import "json" [])) (inr tt);
        Called (Rt (OpenFile (results_path result) "w")) (inr (length (files s)));
        Called (Ext (GetCounts result)) (inr saved);
        Called (Rt (JsonDump saved (length (files s)))) (inr tt);
        Called (Rt (CloseFile (length (files s)))) (inr tt) ] /\
    fs (snd a) = <[results_path result := json_dumps saved]> (fs s).
Proof.
  apply (saving_after_the_last_cell Recorded.sdk_counting
           (bind_imports ["Quantinuum"] empty) (boot 0%nat ∅ Recorded.stale)).
  - simpl. left. reflexivity.
  - reflexivity.
Defined.
